(** * JSON-RPC codec and handlers of [quarkchain/cluster/jsonrpc.py]

    A shallow embedding of the wire codec (quantities, data, domain objects)
    and of the handlers [getTransactionCount] and [sendTransaction], with the
    properties of the design document stated and settled against it.

    Conventions of the embedding.
    - A Python [str] is a [string]; each character stands for the code point
      of the same number (code points below 256).  [len], slicing and
      indexing count characters.
    - A Python [bytes] value is a [list byte].
    - A Python [int] is a [Z].
    - A call that can raise returns a [res]: [Ret v] for a normal return,
      [Raise e] for an exception [e].
    - Handlers that call the master service thread its state explicitly. *)

From Stdlib Require Import ZArith NArith Ascii String List Lia Bool.
From Stdlib.Strings Require Import Byte.
From stdpp Require Import base option gmap strings.
Import ListNotations.

Local Open Scope string_scope.
Local Open Scope Z_scope.

(** ** Exceptions and results *)

(** The exceptions the module can raise or let through.  [InvalidParams] is
    the JSON-RPC parameter error; it is built either from message strings
    ([InvalidParams "msg"], [InvalidParams "msg" data]) or from a caught
    exception ([InvalidParams e]). *)
Inductive exn : Type :=
| InvalidParams (args : list string)
| InvalidParamsOf (cause : exn)
| AssertionError
| ValueError
| TypeError
| AttributeError
| SerializationError
| OtherError (name : string).

Definition is_InvalidParams (e : exn) : bool :=
  match e with
  | InvalidParams _ | InvalidParamsOf _ => true
  | _ => false
  end.

Inductive res (A : Type) : Type :=
| Ret (a : A)
| Raise (e : exn).
Arguments Ret {A} a.
Arguments Raise {A} e.

Definition bind {A B} (m : res A) (k : A -> res B) : res B :=
  match m with
  | Ret a => k a
  | Raise e => Raise e
  end.

Notation "'do' x <- m ; k" := (bind m (fun x => k))
  (at level 10, x name, m at level 100, k at level 200).

(** ** Values received from the JSON layer *)

#[warnings="-register-all"]
Inductive pyval : Type :=
| PyNone
| PyBool (b : bool)
| PyInt (n : Z)
| PyStr (s : string)
| PyList (l : list pyval)
| PyDict (m : gmap string pyval).

(** ** Python string operations used by the module *)

Module Py.

(** [len(s)] *)
Definition len (s : string) : Z := Z.of_nat (String.length s).

(** [s.startswith(p)] *)
Fixpoint startswith (s p : string) {struct p} : bool :=
  match p with
  | EmptyString => true
  | String a p' =>
      match s with
      | String b s' => Ascii.eqb b a && startswith s' p'
      | EmptyString => false
      end
  end.

(** [s[n:]] for [n >= 0]; the empty string when [n] is past the end. *)
Fixpoint slice_from (n : nat) (s : string) : string :=
  match n, s with
  | O, _ => s
  | S n', String _ r => slice_from n' r
  | S _, EmptyString => EmptyString
  end.

(** [c * n] for a one-character string [c]; empty when [n <= 0]. *)
Fixpoint replicate (n : nat) (c : ascii) : string :=
  match n with
  | O => EmptyString
  | S n' => String c (replicate n' c)
  end.

Definition times (c : ascii) (n : Z) : string := replicate (Z.to_nat n) c.

(** [s.rjust(width, fill)]: [s] itself when it is already [width] long or
    longer, else padded on the left. *)
Definition rjust (s : string) (width : Z) (fill : ascii) : string :=
  if width <=? len s then s else times fill (width - len s) ++ s.

(** [s.lstrip(c)] for a one-character set [c]. *)
Fixpoint lstrip (c : ascii) (s : string) : string :=
  match s with
  | EmptyString => EmptyString
  | String a r => if Ascii.eqb a c then lstrip c r else s
  end.

(** [a or b] on strings: the empty string is falsy. *)
Definition str_or (a b : string) : string :=
  match a with
  | EmptyString => b
  | _ => a
  end.

Definition code (c : ascii) : N := N_of_ascii c.

(** C's [isspace] in the C locale ([Py_ISSPACE]). *)
Definition isspace (c : ascii) : bool :=
  let n := code c in
  (n =? 32)%N || ((9 <=? n)%N && (n <=? 13)%N).

(** [_PyLong_DigitValue]: the value of a character as a digit in bases up
    to 36, and 37 for every other character. *)
Definition digit_value (c : ascii) : N :=
  let n := code c in
  if ((48 <=? n) && (n <=? 57))%N then (n - 48)%N
  else if ((97 <=? n) && (n <=? 122))%N then (n - 87)%N
  else if ((65 <=? n) && (n <=? 90))%N then (n - 55)%N
  else 37%N.

Definition is_hex (c : ascii) : bool := (digit_value c <? 16)%N.

Fixpoint all_hex (s : string) : bool :=
  match s with
  | EmptyString => true
  | String c r => is_hex c && all_hex r
  end.

Definition byte_of_N (n : N) : byte :=
  match Byte.of_N n with
  | Some b => b
  | None => x00
  end.

(** [bytes.fromhex(s)]: white space is skipped between bytes, each byte is
    two adjacent hexadecimal digits, anything else is a [ValueError]. *)
Fixpoint fromhex (s : string) : res (list byte) :=
  match s with
  | EmptyString => Ret []
  | String c r =>
      if isspace c then fromhex r
      else if is_hex c then
        match r with
        | String d r' =>
            if is_hex d then
              do rest <- fromhex r';
              Ret (byte_of_N (digit_value c * 16 + digit_value d) :: rest)
            else Raise ValueError
        | EmptyString => Raise ValueError
        end
      else Raise ValueError
  end.

(** [binascii.hexlify]: two lower-case digits per byte. *)
Definition hexdigits : string := "0123456789abcdef".

Definition hex_char (n : N) : ascii :=
  match String.get (N.to_nat n) hexdigits with
  | Some c => c
  | None => "0"%char
  end.

Fixpoint hexlify (data : list byte) : string :=
  match data with
  | [] => EmptyString
  | b :: r =>
      String (hex_char (Byte.to_N b / 16))
        (String (hex_char (Byte.to_N b mod 16)) (hexlify r))
  end.

(** [int(s, 16)] on a [str].  Non-ASCII white space (U+0085, U+00A0) is
    first turned into a blank and any other character from U+007F up cannot
    be part of a number.  Then: leading white space, an optional sign, an
    optional [0x]/[0X] prefix (which one underscore may follow), hexadecimal
    digits with single underscores between them, trailing white space. *)
Definition to_ascii_space (c : ascii) : ascii :=
  let n := code c in
  if ((n =? 133) || (n =? 160))%N then " "%char
  else if (127 <=? n)%N then "?"%char
  else c.

Fixpoint map_chars (f : ascii -> ascii) (s : string) : string :=
  match s with
  | EmptyString => EmptyString
  | String c r => String (f c) (map_chars f r)
  end.

Fixpoint skip_space (s : string) : string :=
  match s with
  | EmptyString => EmptyString
  | String c r => if isspace c then skip_space r else s
  end.

Definition take_sign (s : string) : Z * string :=
  match s with
  | String c r =>
      if Ascii.eqb c "+" then (1, r)
      else if Ascii.eqb c "-" then (-1, r)
      else (1, s)
  | EmptyString => (1, s)
  end.

Definition skip_prefix16 (s : string) : string :=
  match s with
  | String c0 (String c1 r) =>
      if Ascii.eqb c0 "0" && (Ascii.eqb c1 "x" || Ascii.eqb c1 "X") then
        match r with
        | String c2 r' => if Ascii.eqb c2 "_" then r' else r
        | EmptyString => r
        end
      else s
  | _ => s
  end.

Definition starts_with_underscore (s : string) : bool :=
  match s with
  | String c _ => Ascii.eqb c "_"
  | EmptyString => false
  end.

(** The digit scan: the value read so far, whether the previous character
    was an underscore, the number of digits read.  [None] on a doubled
    underscore; otherwise the scan stops at the first character that is
    neither a digit nor an underscore. *)
Fixpoint scan_digits (acc : Z) (prev_us : bool) (ndigits : nat) (s : string)
  : option (Z * bool * nat * string) :=
  match s with
  | EmptyString => Some (acc, prev_us, ndigits, EmptyString)
  | String c r =>
      if Ascii.eqb c "_" then
        if prev_us then None else scan_digits acc true ndigits r
      else if is_hex c then
        scan_digits (acc * 16 + Z.of_N (digit_value c)) false (S ndigits) r
      else Some (acc, prev_us, ndigits, s)
  end.

Definition int16 (s : string) : res Z :=
  let s0 := map_chars to_ascii_space s in
  let '(sign, s1) := take_sign (skip_space s0) in
  let s2 := skip_prefix16 s1 in
  if starts_with_underscore s2 then Raise ValueError
  else
    match scan_digits 0 false 0 s2 with
    | None => Raise ValueError
    | Some (v, prev_us, ndigits, rest) =>
        if prev_us || Nat.eqb ndigits 0 then Raise ValueError
        else
          match skip_space rest with
          | EmptyString => Ret (sign * v)
          | _ => Raise ValueError
          end
    end.

(** [v.to_bytes(n, "big")] for [0 <= v]: the [n] low-order bytes of [v],
    most significant first. *)
Fixpoint to_bytes (n : nat) (v : Z) : list byte :=
  match n with
  | O => []
  | S n' => byte_of_N (Z.to_N ((v / 256 ^ Z.of_nat n') mod 256)) :: to_bytes n' v
  end.

(** [v.bit_length()] for [0 <= v]. *)
Definition bit_length (v : Z) : Z :=
  if v =? 0 then 0 else Z.log2 v + 1.

End Py.

(** ** Reading numbers off digits and bytes

    Used to state what the codec computes, independently of how. *)

(** The number written by a string of hexadecimal digits. *)
Fixpoint hex_number_from (acc : Z) (s : string) : Z :=
  match s with
  | EmptyString => acc
  | String c r => hex_number_from (acc * 16 + Z.of_N (Py.digit_value c)) r
  end.

Definition hex_number (s : string) : Z := hex_number_from 0 s.

(** The number a byte buffer holds, most significant byte first. *)
Fixpoint big_endian_from (acc : Z) (b : list byte) : Z :=
  match b with
  | [] => acc
  | x :: r => big_endian_from (acc * 256 + Z.of_N (Byte.to_N x)) r
  end.

Definition big_endian_value (b : list byte) : Z := big_endian_from 0 b.

(** The characters [data_decoder] takes for hexadecimal digits: those after
    the ["0x"] prefix, or the whole string when there is no prefix. *)
Definition hex_digits_of (s : string) : string :=
  if Py.startswith s "0x" then Py.slice_from 2 s else s.

(** ** The helpers imported from [ethereum.utils]

    These belong to the pyethereum and rlp packages, not to this
    repository; they are given here with the behaviour of those packages
    under Python 3 (the module is Python 3: its handlers are [async def]):
    [int_to_big_endian] is [rlp]'s big-endian integer serialiser,
    [encode_hex] is [binascii.hexlify] read as text and [decode_hex] is
    [bytes.fromhex].  The built-ins [int] and [bytes.fromhex] are those of
    CPython 3.7 and later. *)

(** [is_numeric(x)] is [isinstance(x, int)]: it holds of every [Z]. *)

(** [int_to_big_endian(x)]: the big-endian bytes of [x] without leading zero
    bytes (none at all for 0); a negative [x] cannot be serialised. *)
Definition int_to_big_endian (x : Z) : res (list byte) :=
  if x <? 0 then Raise SerializationError
  else if x =? 0 then Ret []
  else
    let byte_length := Z.max ((Py.bit_length x + 7) / 8) 1 in
    Ret (Py.to_bytes (Z.to_nat byte_length) x).

(** [encode_hex(b)] on [bytes]: [binascii.hexlify] as a [str]. *)
Definition encode_hex (b : list byte) : string := Py.hexlify b.

(** [decode_hex(s)] on a [str]: [bytes.fromhex(s)]. *)
Definition decode_hex (s : string) : res (list byte) := Py.fromhex s.

(** [denoms.shannon] *)
Definition denoms_shannon : Z := 10 ^ 9.

(** ** Defaults *)

Definition default_startgas : Z := 500 * 1000.
Definition default_gasprice : Z := 60 * denoms_shannon.

(** ** Scalar codec *)

Definition is_json_string (data : pyval) : bool :=
  match data with
  | PyStr _ => true
  | _ => false
  end.

(** The tail of [quantity_decoder] reached by every branch that did not
    return: [assert not success] and then the parameter error. *)
Definition quantity_decoder_fail {A} (success : bool) : res A :=
  if success then Raise AssertionError
  else Raise (InvalidParams ["Invalid quantity encoding"]).

Definition quantity_decoder (data : pyval) : res Z :=
  match data with
  | PyStr data =>
      if negb (Py.startswith data "0x") then quantity_decoder_fail false
      else if (3 <? Py.len data) &&
              bool_decide (String.get 2 data = Some "0"%char)
      then quantity_decoder_fail false
      else
        let data := Py.slice_from 2 data in
        match Py.int16 data with
        | Ret v => Ret v
        | Raise ValueError => quantity_decoder_fail false
        | Raise e => Raise e
        end
  | _ => quantity_decoder_fail false
  end.

Definition quantity_encoder (i : Z) : res string :=
  do data <- int_to_big_endian i;
  Ret ("0x" ++ Py.str_or (Py.lstrip "0" (encode_hex data)) "0").

(** [data_decoder] on a value without [startswith] (anything but a [str]
    here) fails on the attribute lookup. *)
Definition data_decoder (data : pyval) : res (list byte) :=
  match data with
  | PyStr data =>
      let data := if negb (Py.startswith data "0x") then "0x" ++ data else data in
      do data <-
        (if negb (Py.len data mod 2 =? 0) then
           if Py.len data <? 64 + 2 then
             Ret ("0x" ++ Py.times "0" (64 - (Py.len data - 2)) ++ Py.slice_from 2 data)
           else Raise AssertionError
         else Ret data);
      match decode_hex (Py.slice_from 2 data) with
      | Ret b => Ret b
      | Raise TypeError =>
          Raise (InvalidParams ["Invalid data hex encoding"; Py.slice_from 2 data])
      | Raise e => Raise e
      end
  | _ => Raise AttributeError
  end.

Definition data_encoder (data : list byte) (length : option Z) : string :=
  let s := encode_hex data in
  match length with
  | None => "0x" ++ s
  | Some length => "0x" ++ Py.rjust s (length * 2) "0"
  end.

(** ** Object codec *)

(** The interface of the serialisable classes of [quarkchain.core]
    ([Address], [Branch]): [cls.deserialize(raw)], which may raise, and
    [obj.serialize()].  The classes themselves are outside this module. *)
Class Serializable (T : Type) := {
  deserialize : list byte -> res T;
  serialize : T -> list byte
}.

Definition obj_decoder {T} `{Serializable T} (data : pyval) : res T :=
  do raw <- data_decoder data;
  match deserialize raw with
  | Ret obj => Ret obj
  | Raise e => Raise (InvalidParamsOf e)
  end.

(** [assert isinstance(obj, cls)] holds by typing. *)
Definition obj_encoder {T} `{Serializable T} (obj : T) : string :=
  "0x" ++ encode_hex (serialize obj).

(** ** Domain decoders *)

Definition block_id_decoder (data : pyval) : res pyval :=
  match data with
  | PyNone => Ret data
  | PyStr tag =>
      if bool_decide (tag = "latest") || bool_decide (tag = "earliest")
         || bool_decide (tag = "pending")
      then Ret data
      else do n <- quantity_decoder data; Ret (PyInt n)
  | _ => do n <- quantity_decoder data; Ret (PyInt n)
  end.

Definition block_hash_decoder (data : pyval) : res (list byte) :=
  do decoded <- data_decoder data;
  if negb (Nat.eqb (List.length decoded) 32)
  then Raise (InvalidParams ["Block hashes must be 32 bytes long"])
  else Ret decoded.

Definition tx_hash_decoder (data : pyval) : res (list byte) :=
  do decoded <- data_decoder data;
  if negb (Nat.eqb (List.length decoded) 32)
  then Raise (InvalidParams ["Transaction hashes must be 32 bytes long"])
  else Ret decoded.

Definition bool_decoder (data : pyval) : res bool :=
  match data with
  | PyBool b => Ret b
  | _ => Raise (InvalidParams ["Parameter must be boolean"])
  end.

(** ** Handlers *)

(** The arguments [sendTransaction] passes to [EvmTransaction(...)]. *)
Record EvmTransaction : Type := {
  evm_nonce : Z;
  evm_gasprice : Z;
  evm_startgas : Z;
  evm_to : list byte;
  evm_value : Z;
  evm_data : list byte;
  evm_v : Z;
  evm_r : Z;
  evm_s : Z;
  evm_branchValue : Z;
  evm_withdraw : Z;
  evm_withdrawSign : Z;
  evm_withdrawTo : list byte
}.

(** A Python variable that holds [None] or a value is an [option]. *)
Definition py_some {A B} (decoder : A -> res B) (x : A) : res (option B) :=
  do v <- decoder x; Ret (Some v).

Definition is_None {A} (o : option A) : bool :=
  match o with
  | None => true
  | Some _ => false
  end.

Definition opt_str (o : option string) : pyval :=
  match o with
  | Some s => PyStr s
  | None => PyNone
  end.

Section Handlers.

(** What the handlers use of [quarkchain.core], of
    [quarkchain.evm.transactions] and of the master server; none of it is
    defined in this module. *)
Context {Address Branch Transaction MasterState : Type}.
Context {Address_cls : Serializable Address}.
Context {Branch_cls : Serializable Branch}.
(** [address.recipient] and [branch.value] *)
Variable recipient : Address -> list byte.
Variable branch_value : Branch -> Z.
(** [Transaction(code=Code.createEvmCode(EvmTransaction(...)))] and
    [tx.hash] *)
Variable new_transaction : EvmTransaction -> res Transaction.
Variable tx_hash : Transaction -> list byte.
(** [await self.master.getTransactionCount(address)] and
    [await self.master.addTx(tx, branch)], as transitions of the master's
    state. *)
Variable master_getTransactionCount :
  Address -> MasterState -> res (Branch * Z) * MasterState.
Variable master_addTx :
  Transaction -> Branch -> MasterState -> res unit * MasterState.

(** A handler: a computation over the master's state that returns or
    raises. *)
Definition M (A : Type) : Type := MasterState -> res A * MasterState.

Definition lift {A} (m : res A) : M A := fun st => (m, st).

Definition bindM {A B} (m : M A) (k : A -> M B) : M B :=
  fun st =>
    match m st with
    | (Ret a, st') => k a st'
    | (Raise e, st') => (Raise e, st')
    end.

Notation "'run' x <- m ; k" := (bindM m (fun x => k))
  (at level 10, x name, m at level 100, k at level 200).

Definition address_decoder (data : pyval) : res Address :=
  obj_decoder data.

Definition address_encoder (address : Address) : string :=
  obj_encoder address.

(** [branch_decoder] and [branch_encoder] call the object codec and have no
    [return]: when the call does not raise, the result is [None]. *)
Definition branch_decoder (data : pyval) : res (option Branch) :=
  do _ <- obj_decoder (T := Branch) data;
  Ret None.

Definition branch_encoder (branch : Branch) : option string :=
  let _ := obj_encoder branch in
  None.

(** [decode_arg(name, decoder)]: the named argument is replaced by its
    decoding before the wrapped function is called. *)
Definition decode_arg {A B C} (decoder : A -> res B) (f : B -> M C)
  : A -> M C :=
  fun a => run b <- lift (decoder a); f b.

(** [encode_res(encoder)] *)
Definition encode_res {A B C} (encoder : B -> C) (f : A -> M B) : A -> M C :=
  fun a => run r <- f a; lift (Ret (encoder r)).

Definition echo : pyval -> M string :=
  decode_arg data_decoder
    (encode_res (fun d => data_encoder d None) (fun data => lift (Ret data))).

Definition getTransactionCount_body (address : Address) (blockId : pyval)
  : M pyval :=
  run bc <- master_getTransactionCount address;
  let '(branch, count) := bc in
  let branch_entry := opt_str (branch_encoder branch) in
  run count_entry <- lift (quantity_encoder count);
  lift (Ret (PyDict (<["branch" := branch_entry]>
                       (<["count" := PyStr count_entry]> ∅)))).

(** [blockId] is optional and defaults to ["pending"]. *)
Definition getTransactionCount (address : pyval) (blockId : option pyval)
  : M pyval :=
  decode_arg address_decoder
    (fun a => decode_arg block_id_decoder (getTransactionCount_body a)
                (default (PyStr "pending") blockId))
    address.

Definition getDataDefault {A} (data : gmap string pyval) (key : string)
    (decoder : pyval -> res A) (default : A) : res A :=
  match data !! key with
  | Some x => decoder x
  | None => Ret default
  end.

Definition raise {A} (e : exn) : M A := lift (Raise e).

Definition sendTransaction (data : pyval) : M string :=
  match data with
  | PyDict data =>
      run to <- lift (getDataDefault data "to" (py_some address_decoder) None);
      let gasKey :=
        if bool_decide (is_Some (data !! "gas")) then "gas" else "startgas" in
      run startgas <-
        lift (getDataDefault data gasKey quantity_decoder default_startgas);
      let gaspriceKey :=
        if bool_decide (is_Some (data !! "gasPrice")) then "gasPrice"
        else "gasprice" in
      run gasprice <-
        lift (getDataDefault data gaspriceKey quantity_decoder default_gasprice);
      run value <- lift (getDataDefault data "value" quantity_decoder 0);
      run data_ <- lift (getDataDefault data "data" data_decoder []);
      run v <- lift (getDataDefault data "v" quantity_decoder 0);
      run r <- lift (getDataDefault data "r" quantity_decoder 0);
      run s <- lift (getDataDefault data "s" quantity_decoder 0);
      run nonce <-
        lift (getDataDefault data "nonce" (py_some quantity_decoder) None);

      run branch <- lift (getDataDefault data "branch" branch_decoder None);
      run withdraw <- lift (getDataDefault data "withdraw" quantity_decoder 0);
      run withdrawTo <-
        lift (getDataDefault data "withdrawTo" (py_some address_decoder) None);

      match nonce with
      | None => raise (InvalidParams ["Missing nonce"])
      | Some nonce =>
      if negb (negb (v =? 0) && negb (r =? 0) && negb (s =? 0))
      then raise (InvalidParams ["Mising v, r, s"])
      else
      match branch with
      | None => raise (InvalidParams ["Missing branch"])
      | Some branch =>
      if (0 <? withdraw) && is_None withdrawTo
      then raise (InvalidParams ["Missing withdrawTo"])
      else
        (* [to.recipient] on [None] is an attribute error *)
        match to with
        | None => raise AttributeError
        | Some to =>
            let evmTx :=
              {| evm_nonce := nonce; evm_gasprice := gasprice;
                 evm_startgas := startgas; evm_to := recipient to;
                 evm_value := value; evm_data := data_;
                 evm_v := v; evm_r := r; evm_s := s;
                 evm_branchValue := branch_value branch;
                 evm_withdraw := withdraw;
                 evm_withdrawSign := 1;
                 (* [withdrawTo.serialize() if withdrawTo else b""]: an
                    address object is truthy, [None] is not *)
                 evm_withdrawTo :=
                   match withdrawTo with
                   | Some a => serialize a
                   | None => []
                   end |} in
            run tx <- lift (new_transaction evmTx);
            run _ <- master_addTx tx branch;
            (* [Logger.debug] leaves the result as it is *)
            lift (Ret (data_encoder (tx_hash tx) None))
        end
      end
      end
  | _ => raise (InvalidParams ["Transaction must be an object"])
  end.

(** A fully valid parameter object: every field that is present decodes,
    the nonce is present, [v], [r] and [s] are not zero, the branch is
    present, and [withdrawTo] is present when [withdraw] is positive. *)
Record valid_payload (m : gmap string pyval) : Prop := {
  vp_to : exists to,
    getDataDefault m "to" (py_some address_decoder) None = Ret to;
  vp_startgas : exists g,
    getDataDefault m
      (if bool_decide (is_Some (m !! "gas")) then "gas" else "startgas")
      quantity_decoder default_startgas = Ret g;
  vp_gasprice : exists g,
    getDataDefault m
      (if bool_decide (is_Some (m !! "gasPrice")) then "gasPrice" else "gasprice")
      quantity_decoder default_gasprice = Ret g;
  vp_value : exists n, getDataDefault m "value" quantity_decoder 0 = Ret n;
  vp_data : exists b, getDataDefault m "data" data_decoder [] = Ret b;
  vp_v : exists n, getDataDefault m "v" quantity_decoder 0 = Ret n /\ n <> 0;
  vp_r : exists n, getDataDefault m "r" quantity_decoder 0 = Ret n /\ n <> 0;
  vp_s : exists n, getDataDefault m "s" quantity_decoder 0 = Ret n /\ n <> 0;
  vp_nonce : exists x n, m !! "nonce" = Some x /\ quantity_decoder x = Ret n;
  vp_branch : exists x (b : Branch),
    m !! "branch" = Some x /\ obj_decoder x = Ret b;
  vp_withdraw : exists n,
    getDataDefault m "withdraw" quantity_decoder 0 = Ret n /\
    (0 < n -> is_Some (m !! "withdrawTo"));
  vp_withdrawTo : exists a,
    getDataDefault m "withdrawTo" (py_some address_decoder) None = Ret a
}.

End Handlers.

(** ** Errors of [sendTransaction] *)

(** An exception [data_decoder] itself raised on one of the hex-data fields
    of the mapping. *)
Definition data_field_error (m : gmap string pyval) (e : exn) : Prop :=
  exists key x,
    In key ["to"; "data"; "branch"; "withdrawTo"] /\
    m !! key = Some x /\ data_decoder x = Raise e.

(** Every exception [sendTransaction] can raise on a mapping. *)
Definition send_error (e : exn) : Prop :=
  In e [InvalidParams ["Missing nonce"]; InvalidParams ["Mising v, r, s"];
        InvalidParams ["Missing branch"];
        InvalidParams ["Invalid quantity encoding"]]
  \/ (exists cause, e = InvalidParamsOf cause)
  \/ is_InvalidParams e = false.

(** ** A small environment for the handlers

    Stand-ins for the classes of [quarkchain.core] and for the master
    server, on which the handlers can be run: an address is a buffer of 24
    bytes (recipient, then shard), a branch a buffer of 4 bytes, the master
    keeps the list of the transactions it was given and answers every count
    query with branch 1 and the length of that list. *)
Module Demo.

Record Address : Type := { address_raw : list byte }.
Record Branch : Type := { branch_raw : list byte }.

#[global] Instance Address_cls : Serializable Address := {|
  deserialize raw :=
    if Nat.eqb (List.length raw) 24 then Ret {| address_raw := raw |}
    else Raise (OtherError "Address: wrong size");
  serialize a := address_raw a
|}.

#[global] Instance Branch_cls : Serializable Branch := {|
  deserialize raw :=
    if Nat.eqb (List.length raw) 4 then Ret {| branch_raw := raw |}
    else Raise (OtherError "Branch: wrong size");
  serialize b := branch_raw b
|}.

Definition recipient (a : Address) : list byte := firstn 20 (address_raw a).
Definition branch_value (b : Branch) : Z := big_endian_value (branch_raw b).

Definition Transaction : Type := EvmTransaction.
Definition new_transaction (tx : EvmTransaction) : res Transaction := Ret tx.
Definition tx_hash (tx : Transaction) : list byte := repeat x00 32.

Definition MasterState : Type := list Transaction.

Definition master_getTransactionCount (a : Address) (st : MasterState)
  : res (Branch * Z) * MasterState :=
  (Ret ({| branch_raw := [x00; x00; x00; x01] |}, Z.of_nat (List.length st)), st).

Definition master_addTx (tx : Transaction) (b : Branch) (st : MasterState)
  : res unit * MasterState :=
  (Ret tt, (st ++ [tx])%list).

Definition sendTransaction : pyval -> MasterState -> res string * MasterState :=
  sendTransaction recipient branch_value new_transaction tx_hash master_addTx.

Definition getTransactionCount
  : pyval -> option pyval -> MasterState -> res pyval * MasterState :=
  getTransactionCount master_getTransactionCount.

Definition an_address : string :=
  "0x000102030405060708090a0b0c0d0e0f1011121300000001".

(** A parameter object with every field of a transaction. *)
Definition valid_params : gmap string pyval :=
  list_to_map
    [("to", PyStr an_address); ("gas", PyStr "0x5208");
     ("gasPrice", PyStr "0x3b9aca00"); ("value", PyStr "0xde0b6b3a7640000");
     ("data", PyStr "0x"); ("v", PyStr "0x1b"); ("r", PyStr "0x1");
     ("s", PyStr "0x2"); ("nonce", PyStr "0x0");
     ("branch", PyStr "0x00000001"); ("withdraw", PyStr "0x5");
     ("withdrawTo", PyStr an_address)].

(** Odd-length data over the ceiling of [data_decoder]: 65 digits. *)
Definition long_odd_data : string :=
  "0x11111111111111111111111111111111111111111111111111111111111111111".

End Demo.

(** ** Keys and field errors of [sendTransaction] *)

(** The keys [sendTransaction] looks up in its parameter object. *)
Definition sendTransaction_keys : list string :=
  ["to"; "gas"; "startgas"; "gasPrice"; "gasprice"; "value"; "data";
   "v"; "r"; "s"; "nonce"; "branch"; "withdraw"; "withdrawTo"].

(** The exceptions a field decoder can raise: the quantity error, a wrapped
    deserialisation error, or an exception that is no [InvalidParams]. *)
Definition field_error (e : exn) : Prop :=
  e = InvalidParams ["Invalid quantity encoding"]
  \/ (exists cause, e = InvalidParamsOf cause)
  \/ is_InvalidParams e = false.

(** The three messages of the presence checks [sendTransaction] can
    reach. *)
Definition missing_field_errors : list exn :=
  [InvalidParams ["Missing nonce"]; InvalidParams ["Mising v, r, s"];
   InvalidParams ["Missing branch"]].

(** ** Canonical quantities *)

(** A lower-case hexadecimal digit: ["0"] to ["9"], ["a"] to ["f"]. *)
Definition is_lower_hex (c : ascii) : bool :=
  let n := Py.code c in
  ((48 <=? n) && (n <=? 57) || (97 <=? n) && (n <=? 102))%N.

Fixpoint all_lower_hex (s : string) : bool :=
  match s with
  | EmptyString => true
  | String c r => is_lower_hex c && all_lower_hex r
  end.

(** The digits of a canonical quantity: lower-case hexadecimal digits, at
    least one, the first of which is ["0"] only when it is the only one. *)
Definition canonical_digits (t : string) : bool :=
  all_lower_hex t &&
  match t with
  | EmptyString => false
  | String c EmptyString => true
  | String c _ => negb (Ascii.eqb c "0")
  end.

(** ** The codec on a few values *)

Example quantity_encoder_255 : quantity_encoder 255 = Ret "0xff".
Proof. reflexivity. Qed.

Example quantity_encoder_0 : quantity_encoder 0 = Ret "0x0".
Proof. reflexivity. Qed.

Example quantity_encoder_4096 : quantity_encoder 4096 = Ret "0x1000".
Proof. reflexivity. Qed.

Example quantity_decoder_0x5 : quantity_decoder (PyStr "0x5") = Ret 5.
Proof. reflexivity. Qed.

Example quantity_decoder_upper : quantity_decoder (PyStr "0xFF") = Ret 255.
Proof. reflexivity. Qed.

Example data_decoder_abcd : data_decoder (PyStr "abcd") = Ret [xab; xcd].
Proof. reflexivity. Qed.

Example data_encoder_pad : data_encoder [xff] (Some 3) = "0x0000ff".
Proof. reflexivity. Qed.

(** ** Facts about the string and byte primitives *)

Section PyFacts.
Import Py.

Lemma append_String c (s t : string) : String c s ++ t = String c (s ++ t).
Proof. reflexivity. Qed.

Lemma append_empty (t : string) : "" ++ t = t.
Proof. reflexivity. Qed.

Lemma str_length_replicate n c : String.length (replicate n c) = n.
Proof. induction n as [|n IH]; simpl; congruence. Qed.

Lemma str_length_append (s t : string) :
  String.length (s ++ t) = (String.length s + String.length t)%nat.
Proof.
  induction s as [|c s IH]; [done|].
  rewrite append_String. simpl. congruence.
Qed.

Lemma length_hexlify b : String.length (hexlify b) = (2 * List.length b)%nat.
Proof. induction b as [|x b IH]; simpl; lia. Qed.

Lemma len_hexlify b : len (hexlify b) = 2 * Z.of_nat (List.length b).
Proof. unfold len. rewrite length_hexlify. lia. Qed.

(** The sixteen digits [hexlify] writes. *)
Lemma hex_char_spec n :
  (n < 16)%N ->
  digit_value (hex_char n) = n /\
  isspace (hex_char n) = false /\
  Ascii.eqb (hex_char n) "_" = false /\
  Ascii.eqb (hex_char n) "x" = false /\
  Ascii.eqb (hex_char n) "X" = false /\
  to_ascii_space (hex_char n) = hex_char n.
Proof.
  intros Hn.
  destruct n as [|p]; [vm_compute; tauto|].
  do 4 (try destruct p as [p|p|]); try lia; vm_compute; tauto.
Qed.

Lemma hex_char_is_hex n : (n < 16)%N -> is_hex (hex_char n) = true.
Proof.
  intros Hn. unfold is_hex.
  destruct (hex_char_spec n Hn) as [-> _]. by apply N.ltb_lt.
Qed.

Lemma byte_hi_lt b : (Byte.to_N b / 16 < 16)%N.
Proof.
  pose proof (Byte.to_N_bounded b).
  apply N.Div0.div_lt_upper_bound. lia.
Qed.

Lemma byte_lo_lt b : (Byte.to_N b mod 16 < 16)%N.
Proof. apply N.mod_lt. lia. Qed.

Lemma byte_of_N_to_N b : byte_of_N (Byte.to_N b) = b.
Proof. unfold byte_of_N. by rewrite Byte.of_to_N. Qed.

Lemma to_N_byte_of_N n : (n < 256)%N -> Byte.to_N (byte_of_N n) = n.
Proof.
  intros Hn. unfold byte_of_N.
  destruct (Byte.of_N n) as [b|] eqn:E.
  - by apply Byte.to_of_N.
  - apply Byte.of_N_None_iff in E. lia.
Qed.

Lemma byte_nibbles b :
  byte_of_N (Byte.to_N b / 16 * 16 + Byte.to_N b mod 16) = b.
Proof.
  rewrite <- (byte_of_N_to_N b) at 3. f_equal.
  rewrite (N.div_mod (Byte.to_N b) 16) at 3 by lia. lia.
Qed.

(** [hexlify] writes hexadecimal digits only. *)
Lemma all_hex_hexlify b : all_hex (hexlify b) = true.
Proof.
  induction b as [|x b IH]; [done|]. simpl.
  rewrite !hex_char_is_hex by (apply byte_hi_lt || apply byte_lo_lt). done.
Qed.

(** [bytes.fromhex] undoes [hexlify]. *)
Lemma fromhex_hexlify b : fromhex (hexlify b) = Ret b.
Proof.
  induction b as [|x b IH]; [done|].
  cbn [hexlify fromhex].
  destruct (hex_char_spec _ (byte_hi_lt x)) as (Hv1 & Hs1 & _).
  destruct (hex_char_spec _ (byte_lo_lt x)) as (Hv2 & _).
  rewrite Hs1, !hex_char_is_hex by (apply byte_hi_lt || apply byte_lo_lt).
  rewrite IH, Hv1, Hv2. cbn [bind]. by rewrite byte_nibbles.
Qed.

Lemma slice_from_2_0x s : slice_from 2 ("0x" ++ s) = s.
Proof. done. Qed.

Lemma startswith_0x s : startswith ("0x" ++ s) "0x" = true.
Proof. reflexivity. Qed.

Lemma len_0x s : len ("0x" ++ s) = 2 + len s.
Proof. unfold len. rewrite str_length_append. simpl. lia. Qed.

Lemma mod2_even_len k : ((2 + 2 * k) mod 2 =? 0) = true.
Proof.
  apply Z.eqb_eq. replace (2 + 2 * k) with ((1 + k) * 2) by lia.
  by apply Z.mod_mul.
Qed.

End PyFacts.

(** ** Data round trip *)

(** C4. Encoding a byte buffer with [data_encoder] (no length) and decoding
    the result with [data_decoder] gives the buffer back. *)
Theorem data_decoder_encoder (b : list byte) :
  data_decoder (PyStr (data_encoder b None)) = Ret b.
Proof.
  unfold data_encoder, data_decoder, encode_hex, decode_hex.
  rewrite startswith_0x. cbn [negb].
  rewrite len_0x, len_hexlify.
  rewrite mod2_even_len. cbn [negb bind]. rewrite slice_from_2_0x, fromhex_hexlify. done.
Qed.

Example int16_tests :
  Py.int16 "-1" = Ret (-1) /\ Py.int16 "+1" = Ret 1 /\ Py.int16 " 1" = Ret 1 /\
  Py.int16 "1 " = Ret 1 /\ Py.int16 "0x1" = Ret 1 /\ Py.int16 "0X1" = Ret 1 /\
  Py.int16 "0x_1" = Ret 1 /\ Py.int16 "_1" = Raise ValueError /\
  Py.int16 "1_0" = Ret 16 /\ Py.int16 "1__0" = Raise ValueError /\
  Py.int16 "1_" = Raise ValueError /\ Py.int16 "" = Raise ValueError /\
  Py.int16 "0x" = Raise ValueError /\ Py.int16 "+ 1" = Raise ValueError /\
  Py.int16 "--1" = Raise ValueError /\ Py.int16 "0x 1" = Raise ValueError /\
  Py.int16 "G" = Raise ValueError /\ Py.int16 "0x-1" = Raise ValueError /\
  Py.int16 "x1" = Raise ValueError /\ Py.int16 "ff" = Ret 255 /\
  Py.int16 "0x__1" = Raise ValueError /\ Py.int16 "0" = Ret 0 /\
  Py.int16 "00" = Ret 0 /\ Py.int16 "0_0" = Ret 0 /\ Py.int16 "-0x1f" = Ret (-31).
Proof. repeat split; reflexivity. Qed.

Example fromhex_tests :
  Py.fromhex "zz" = Raise ValueError /\ Py.fromhex "a b" = Raise ValueError /\
  Py.fromhex "ab cd" = Ret [xab; xcd] /\ Py.fromhex " ab" = Ret [xab] /\
  Py.fromhex "ab " = Ret [xab] /\ Py.fromhex "a" = Raise ValueError /\
  Py.fromhex "0a  " = Ret [x0a] /\ Py.fromhex "AB" = Ret [xab] /\
  Py.fromhex "" = Ret [].
Proof. repeat split; reflexivity. Qed.

(** ** Hexadecimal digits and the numbers they write *)

Section HexFacts.
Import Py.

(** A hexadecimal digit is none of the characters the parsers treat
    specially. *)
Lemma is_hex_plain c :
  is_hex c = true ->
  isspace c = false /\
  Ascii.eqb c "_" = false /\
  Ascii.eqb c "+" = false /\
  Ascii.eqb c "-" = false /\
  Ascii.eqb c "x" = false /\
  Ascii.eqb c "X" = false /\
  to_ascii_space c = c /\
  (digit_value c < 16)%N.
Proof.
  destruct c as [[] [] [] [] [] [] [] []]; vm_compute; intros H;
    try discriminate H; repeat split; reflexivity.
Qed.

Lemma map_chars_all_hex s :
  all_hex s = true -> map_chars to_ascii_space s = s.
Proof.
  induction s as [|c s IH]; [done|]. cbn [all_hex map_chars].
  intros [Hc Hs]%andb_true_iff.
  destruct (is_hex_plain c Hc) as (_ & _ & _ & _ & _ & _ & -> & _).
  by rewrite IH.
Qed.

Lemma scan_digits_all_hex s acc n :
  all_hex s = true ->
  scan_digits acc false n s =
    Some (hex_number_from acc s, false, (n + String.length s)%nat, EmptyString).
Proof.
  revert acc n. induction s as [|c s IH]; intros acc n.
  - intros _. cbn. by rewrite Nat.add_0_r.
  - cbn [all_hex]. intros [Hc Hs]%andb_true_iff.
    destruct (is_hex_plain c Hc) as (_ & Hus & _).
    cbn [scan_digits hex_number_from String.length].
    rewrite Hus, Hc, IH by done. do 3 f_equal. lia.
Qed.

(** On a non-empty string of hexadecimal digits [int(s, 16)] is the number
    the digits write. *)
Lemma int16_all_hex s :
  all_hex s = true -> s <> EmptyString -> int16 s = Ret (hex_number s).
Proof.
  intros Hs Hne. unfold int16. rewrite (map_chars_all_hex s Hs).
  destruct s as [|c r]; [done|].
  pose proof Hs as Hs'. cbn [all_hex] in Hs'.
  apply andb_true_iff in Hs' as [Hc Hr].
  destruct (is_hex_plain c Hc) as (Hsp & Hus & Hplus & Hminus & Hx & HX & _).
  cbn [skip_space]. rewrite Hsp. cbn [take_sign]. rewrite Hplus, Hminus.
  assert (Hpre : skip_prefix16 (String c r) = String c r).
  { destruct r as [|d r]; [done|]. cbn [skip_prefix16].
    cbn [all_hex] in Hr. apply andb_true_iff in Hr as [Hd _].
    destruct (is_hex_plain d Hd) as (_ & _ & _ & _ & -> & -> & _).
    by rewrite andb_false_r. }
  rewrite Hpre. cbn [starts_with_underscore]. rewrite Hus.
  rewrite (scan_digits_all_hex _ 0 0 Hs). cbn [orb String.length Nat.add Nat.eqb].
  cbn [skip_space]. unfold hex_number. f_equal. lia.
Qed.

Lemma hex_number_hexlify b acc :
  hex_number_from acc (hexlify b) = big_endian_from acc b.
Proof.
  revert acc. induction b as [|x b IH]; intros acc; [done|].
  cbn [hexlify hex_number_from big_endian_from].
  destruct (hex_char_spec _ (byte_hi_lt x)) as (-> & _).
  destruct (hex_char_spec _ (byte_lo_lt x)) as (-> & _).
  rewrite IH. f_equal.
  rewrite (N.div_mod (Byte.to_N x) 16) at 3 by lia. lia.
Qed.

Lemma hex_number_lstrip s : hex_number (lstrip "0" s) = hex_number s.
Proof.
  unfold hex_number. induction s as [|c s IH]; [done|].
  cbn [lstrip]. destruct (Ascii.eqb_spec c "0") as [->|Hc]; [|done].
  rewrite IH. reflexivity.
Qed.

Lemma all_hex_lstrip c s : all_hex s = true -> all_hex (lstrip c s) = true.
Proof.
  induction s as [|a s IH]; [done|]. cbn [lstrip].
  destruct (Ascii.eqb a c); [|done].
  cbn [all_hex]. intros [_ Hs]%andb_true_iff. auto.
Qed.

Lemma lstrip_head c s a r : lstrip c s = String a r -> a <> c.
Proof.
  induction s as [|b s IH]; [done|]. cbn [lstrip].
  destruct (Ascii.eqb_spec b c) as [->|Hb]; [done|].
  intros [= <- <-]. done.
Qed.

End HexFacts.

(** ** Big-endian bytes *)

Section BytesFacts.
Import Py.

Lemma length_to_bytes n v : List.length (to_bytes n v) = n.
Proof. induction n as [|n IH]; cbn [to_bytes List.length]; congruence. Qed.

(** Reading back the [n] bytes [to_bytes] writes gives the number modulo
    [256 ^ n]. *)
Lemma big_endian_to_bytes n v acc :
  0 <= v ->
  big_endian_from acc (to_bytes n v) = acc * 256 ^ Z.of_nat n + v mod 256 ^ Z.of_nat n.
Proof.
  intros Hv. revert acc. induction n as [|n IH]; intros acc.
  - cbn [to_bytes big_endian_from]. change (256 ^ Z.of_nat 0) with 1.
    rewrite Z.mod_1_r. lia.
  - cbn [to_bytes big_endian_from]. rewrite IH.
    assert (Hd : 0 <= (v / 256 ^ Z.of_nat n) mod 256 < 256)
      by (apply Z.mod_pos_bound; lia).
    rewrite to_N_byte_of_N by lia. rewrite Z2N.id by lia.
    replace (Z.of_nat (S n)) with (Z.of_nat n + 1) by lia.
    rewrite Z.pow_add_r, Z.pow_1_r by lia.
    assert (Hp : 0 < 256 ^ Z.of_nat n) by (apply Z.pow_pos_nonneg; lia).
    rewrite (Z.rem_mul_r v (256 ^ Z.of_nat n) 256) by lia. lia.
Qed.

(** A positive number fits in the bytes its bit length calls for. *)
Lemma bit_length_bound v :
  0 < v -> v < 256 ^ Z.max ((bit_length v + 7) / 8) 1.
Proof.
  intros Hv. unfold bit_length.
  destruct (Z.eqb_spec v 0) as [->|_]; [lia|].
  pose proof (Z.log2_spec v Hv) as [_ Hlt].
  pose proof (Z.log2_nonneg v) as Hl.
  set (k := Z.max ((Z.log2 v + 1 + 7) / 8) 1).
  assert (Hk : Z.log2 v + 1 <= 8 * k).
  { pose proof (Z.div_mod (Z.log2 v + 1 + 7) 8 ltac:(lia)).
    pose proof (Z.mod_pos_bound (Z.log2 v + 1 + 7) 8 ltac:(lia)). lia. }
  change 256 with (2 ^ 8). rewrite <- Z.pow_mul_r by lia.
  eapply Z.lt_le_trans; [exact Hlt|].
  replace (Z.succ (Z.log2 v)) with (Z.log2 v + 1) by lia.
  apply Z.pow_le_mono_r; lia.
Qed.

Lemma int_to_big_endian_value x :
  0 <= x ->
  exists b, int_to_big_endian x = Ret b /\ big_endian_value b = x.
Proof.
  intros Hx. unfold int_to_big_endian.
  destruct (Z.ltb_spec x 0) as [|_]; [lia|].
  destruct (Z.eqb_spec x 0) as [->|Hne].
  - by exists [].
  - eexists. split; [reflexivity|]. unfold big_endian_value.
    rewrite big_endian_to_bytes by lia.
    pose proof (bit_length_bound x ltac:(lia)) as Hb.
    rewrite Z2Nat.id by lia. rewrite Z.mod_small by lia. lia.
Qed.

End BytesFacts.

(** ** Quantity round trip *)

(** The string [quantity_encoder] returns: ["0x"], then hexadecimal digits
    that write the number, with no leading ["0"] unless they are ["0"]. *)
Lemma quantity_encoder_canonical x :
  0 <= x ->
  exists t,
    quantity_encoder x = Ret ("0x" ++ t) /\
    Py.all_hex t = true /\ t <> EmptyString /\ hex_number t = x /\
    (t = "0" \/ exists a r, t = String a r /\ a <> "0"%char).
Proof.
  intros Hx. destruct (int_to_big_endian_value x Hx) as (b & Hb & Hval).
  unfold quantity_encoder. rewrite Hb. cbn [bind]. unfold encode_hex.
  assert (Hnum : hex_number (Py.lstrip "0" (Py.hexlify b)) = x).
  { rewrite hex_number_lstrip. unfold hex_number.
    by rewrite hex_number_hexlify. }
  assert (Hhex : Py.all_hex (Py.lstrip "0" (Py.hexlify b)) = true)
    by apply all_hex_lstrip, all_hex_hexlify.
  destruct (Py.lstrip "0" (Py.hexlify b)) as [|a r] eqn:E.
  - exists "0". cbn [Py.str_or]. repeat split; try done. by left.
  - exists (String a r). cbn [Py.str_or]. repeat split; try done.
    right. exists a, r. split; [done|]. by eapply lstrip_head.
Qed.

(** C3. For every non-negative integer [x], [quantity_encoder] returns a
    string and [quantity_decoder] turns that string back into [x]. *)
Theorem quantity_decoder_encoder (x : Z) :
  0 <= x ->
  exists s, quantity_encoder x = Ret s /\ quantity_decoder (PyStr s) = Ret x.
Proof.
  intros Hx.
  destruct (quantity_encoder_canonical x Hx) as (t & Henc & Hhex & Hne & Hnum & Hhead).
  exists ("0x" ++ t). split; [exact Henc|].
  unfold quantity_decoder. rewrite startswith_0x. cbn [negb].
  rewrite slice_from_2_0x, (int16_all_hex t Hhex Hne), Hnum.
  destruct Hhead as [->|(a & r & -> & Ha)]; [reflexivity|].
  rewrite len_0x. rewrite !append_String, append_empty. cbn [String.get].
  rewrite bool_decide_eq_false_2 by congruence.
  by rewrite andb_false_r.
Qed.

(** The theorem at 4096, whose encoding is ["0x1000"]. *)
Lemma quantity_decoder_encoder_witness :
  0 <= 4096 /\
  exists s, quantity_encoder 4096 = Ret s /\ quantity_decoder (PyStr s) = Ret 4096.
Proof. split; [lia|]. apply (quantity_decoder_encoder 4096). lia. Defined.

(** ** Decoding data: the padding of odd-length input *)

Section DataFacts.
Import Py.

Lemma startswith_0x_inv s :
  startswith s "0x" = true -> s = "0x" ++ slice_from 2 s.
Proof.
  destruct s as [|a [|b r]]; cbn [startswith]; try done.
  - by rewrite andb_false_r.
  - destruct (Ascii.eqb_spec a "0") as [->|]; [|done].
    destruct (Ascii.eqb_spec b "x") as [->|]; done.
Qed.

Lemma hex_digits_of_prefix s :
  (if negb (startswith s "0x") then "0x" ++ s else s) = "0x" ++ hex_digits_of s.
Proof.
  unfold hex_digits_of. destruct (startswith s "0x") eqn:E; cbn [negb]; [|done].
  by apply startswith_0x_inv.
Qed.

(** [data_decoder] on a string, in terms of the digits it reads. *)
Lemma data_decoder_str s :
  data_decoder (PyStr s) =
    let p := hex_digits_of s in
    do digits <-
      (if negb (len p mod 2 =? 0) then
         if len p <? 64 then Ret (times "0" (64 - len p) ++ p)
         else Raise AssertionError
       else Ret p);
    match decode_hex digits with
    | Ret b => Ret b
    | Raise TypeError => Raise (InvalidParams ["Invalid data hex encoding"; digits])
    | Raise e => Raise e
    end.
Proof.
  unfold data_decoder. rewrite hex_digits_of_prefix.
  set (p := hex_digits_of s). cbv zeta. rewrite len_0x.
  replace ((2 + len p) mod 2) with (len p mod 2)
    by (replace (2 + len p) with (len p + 1 * 2) by lia;
        by rewrite Z.mod_add by lia).
  replace (2 + len p <? 64 + 2) with (len p <? 64)
    by (destruct (Z.ltb_spec (len p) 64), (Z.ltb_spec (2 + len p) (64 + 2));
        lia || done).
  replace (64 - (2 + len p - 2)) with (64 - len p) by lia.
  destruct (negb (len p mod 2 =? 0)); [destruct (len p <? 64)|];
    cbn [bind]; by rewrite ?slice_from_2_0x.
Qed.

Lemma all_hex_append s t :
  all_hex s = true -> all_hex t = true -> all_hex (s ++ t) = true.
Proof.
  intros Hs Ht. induction s as [|c s IH]; [done|].
  rewrite append_String. cbn [all_hex] in *.
  apply andb_true_iff in Hs as [-> Hs]. auto.
Qed.

Lemma all_hex_zeros n : all_hex (replicate n "0") = true.
Proof. induction n as [|n IH]; [done|]. cbn [replicate all_hex]. by rewrite IH. Qed.

Lemma hex_number_zeros n p :
  hex_number (replicate n "0" ++ p) = hex_number p.
Proof.
  unfold hex_number. induction n as [|n IH]; [done|].
  cbn [replicate]. rewrite append_String. cbn [hex_number_from]. exact IH.
Qed.

(** On an even number of hexadecimal digits [bytes.fromhex] returns one
    byte for every two digits, and the bytes hold the number the digits
    write. *)
Lemma fromhex_all_hex k s :
  String.length s = (2 * k)%nat -> all_hex s = true ->
  exists b, fromhex s = Ret b /\ List.length b = k /\
            forall acc, big_endian_from acc b = hex_number_from acc s.
Proof.
  revert s. induction k as [|k IH]; intros s Hlen Hhex.
  - destruct s; [|cbn [String.length] in Hlen; lia]. by exists [].
  - destruct s as [|c [|d r]]; cbn [String.length] in Hlen; try lia.
    cbn [all_hex] in Hhex.
    apply andb_true_iff in Hhex as [Hc [Hd Hr]%andb_true_iff].
    destruct (IH r ltac:(lia) Hr) as (b & Hb & Hbl & Hbv).
    destruct (is_hex_plain c Hc) as (Hsp & _ & _ & _ & _ & _ & _ & Hcv).
    destruct (is_hex_plain d Hd) as (_ & _ & _ & _ & _ & _ & _ & Hdv).
    eexists. cbn [fromhex]. rewrite Hsp, Hc, Hd, Hb. cbn [bind].
    split; [reflexivity|]. split; [cbn; lia|].
    intros acc. cbn [big_endian_from hex_number_from].
    rewrite to_N_byte_of_N by lia. rewrite Hbv. f_equal. lia.
Qed.

End DataFacts.

(** C7. Let [p] be the digits [data_decoder] reads from a string [s] (what
    follows ["0x"], or all of [s] when it has no prefix).  When [p] is an odd
    number of hexadecimal digits, at most 63, it is padded on the left with
    ["0"] to exactly 64 digits and the result is a 32-byte buffer holding the
    number [p] writes.  When the length of [p] is odd and more than 63, the
    decoder fails (on its assertion).  The ceiling is only on the odd path:
    an even number of hexadecimal digits, however many, decodes to half as
    many bytes. *)
Theorem data_decoder_legacy_padding (s : string) :
  let p := hex_digits_of s in
  (Py.all_hex p = true -> Py.len p mod 2 = 1 -> Py.len p <= 63 ->
     Py.len (Py.times "0" (64 - Py.len p) ++ p) = 64 /\
     data_decoder (PyStr s) = decode_hex (Py.times "0" (64 - Py.len p) ++ p) /\
     exists b, data_decoder (PyStr s) = Ret b /\ List.length b = 32%nat /\
               big_endian_value b = hex_number p)
  /\ (Py.len p mod 2 = 1 -> 63 < Py.len p ->
        data_decoder (PyStr s) = Raise AssertionError)
  /\ (Py.all_hex p = true -> Py.len p mod 2 = 0 ->
        exists b, data_decoder (PyStr s) = Ret b /\
                  Z.of_nat (List.length b) = Py.len p / 2 /\
                  big_endian_value b = hex_number p).
Proof.
  intros p. rewrite data_decoder_str. fold p. cbv zeta.
  split; [|split].
  - intros Hhex Hodd Hle.
    rewrite Hodd. cbn [Z.eqb negb].
    destruct (Z.ltb_spec (Py.len p) 64) as [_|]; [|lia]. cbn [bind].
    set (q := Py.times "0" (64 - Py.len p) ++ p).
    assert (Hlen : String.length q = (2 * 32)%nat).
    { unfold q, Py.times. rewrite str_length_append, str_length_replicate.
      unfold Py.len in *. lia. }
    assert (Hq : Py.all_hex q = true)
      by (apply all_hex_append; [apply all_hex_zeros|done]).
    destruct (fromhex_all_hex 32 q Hlen Hq) as (b & Hb & Hbl & Hbv).
    unfold decode_hex. rewrite Hb.
    split; [unfold Py.len; rewrite Hlen; lia|]. split; [done|].
    exists b. repeat split; try done.
    unfold big_endian_value. rewrite Hbv. apply hex_number_zeros.
  - intros Hodd Hgt. rewrite Hodd. cbn [Z.eqb negb].
    destruct (Z.ltb_spec (Py.len p) 64) as [|_]; [lia|]. done.
  - intros Hhex Heven. rewrite Heven. cbn [Z.eqb negb bind].
    assert (Hlen : String.length p = (2 * Z.to_nat (Py.len p / 2))%nat).
    { unfold Py.len in *.
      pose proof (Z.div_mod (Z.of_nat (String.length p)) 2 ltac:(lia)). lia. }
    destruct (fromhex_all_hex _ p Hlen Hhex) as (b & Hb & Hbl & Hbv).
    unfold decode_hex. rewrite Hb. exists b. repeat split; try done.
    + rewrite Hbl. unfold Py.len in *.
      pose proof (Z.div_mod (Z.of_nat (String.length p)) 2 ltac:(lia)). lia.
    + unfold big_endian_value. by rewrite Hbv.
Qed.

(** The theorem at ["0xabc"] (three digits, padded), at ["0x"] followed by
    65 digits (over the ceiling) and at ["0x"] followed by 66 digits (even,
    33 bytes). *)
Lemma data_decoder_legacy_padding_witness :
  (exists b, data_decoder (PyStr "0xabc") = Ret b /\ List.length b = 32%nat /\
             big_endian_value b = 2748)
  /\ data_decoder
       (PyStr "0x11111111111111111111111111111111111111111111111111111111111111111")
     = Raise AssertionError
  /\ (exists b,
        data_decoder
          (PyStr "0xababababababababababababababababababababababababababababababababab")
        = Ret b /\ Z.of_nat (List.length b) = 33).
Proof.
  split; [|split].
  - destruct (data_decoder_legacy_padding "0xabc") as (H & _ & _).
    destruct H as (_ & _ & b & Hb & Hl & Hv);
      [reflexivity | reflexivity | vm_compute; discriminate |].
    exists b. repeat split; assumption.
  - destruct (data_decoder_legacy_padding
      "0x11111111111111111111111111111111111111111111111111111111111111111")
      as (_ & H & _).
    apply H; reflexivity.
  - destruct (data_decoder_legacy_padding
      "0xababababababababababababababababababababababababababababababababab")
      as (_ & _ & H).
    destruct H as (b & Hb & Hl & _); [reflexivity ..|].
    exists b. split; assumption.
Defined.

(** ** Errors of the scalar decoders *)

Section DecoderErrors.
Import Py.

(** [bytes.fromhex] raises nothing but [ValueError]. *)
Lemma fromhex_raises n s e :
  (String.length s <= n)%nat -> fromhex s = Raise e -> e = ValueError.
Proof.
  revert s. induction n as [|n IH]; intros s Hlen.
  - destruct s; [done|cbn in Hlen; lia].
  - destruct s as [|c r]; [done|]. cbn [String.length] in Hlen.
    cbn [fromhex]. destruct (isspace c); [apply IH; lia|].
    destruct (is_hex c); [|congruence].
    destruct r as [|d r']; [congruence|].
    destruct (is_hex d); [|congruence].
    cbn [String.length] in Hlen.
    destruct (fromhex r') as [b|e'] eqn:E; cbn [bind]; [done|].
    intros [= <-]. apply (IH r'); [lia|done].
Qed.

(** [int(s, 16)] raises nothing but [ValueError]. *)
Lemma int16_raises s e : int16 s = Raise e -> e = ValueError.
Proof.
  unfold int16.
  destruct (take_sign _) as [sign s1].
  destruct (starts_with_underscore _); [congruence|].
  destruct (scan_digits _ _ _ _) as [[[[v us] nd] rest]|]; [|congruence].
  destruct (us || Nat.eqb nd 0); [congruence|].
  destruct (skip_space rest); congruence.
Qed.

End DecoderErrors.

(** [quantity_decoder] either returns or raises the parameter error. *)
Lemma quantity_decoder_raises data e :
  quantity_decoder data = Raise e ->
  e = InvalidParams ["Invalid quantity encoding"].
Proof.
  unfold quantity_decoder, quantity_decoder_fail.
  destruct data as [| | |s| |]; try congruence.
  destruct (negb (Py.startswith s "0x")); [congruence|].
  destruct (_ && _); [congruence|].
  destruct (Py.int16 _) as [v|e'] eqn:E; [done|].
  apply int16_raises in E as ->. congruence.
Qed.

(** The rejections of [quantity_decoder] that hold as the design states
    them: anything but a string, a string without the prefix, a string
    longer than three characters with ["0"] after the prefix, and a string
    whose digits [int] does not accept. *)
Lemma quantity_decoder_rejects :
  let err := Raise (InvalidParams ["Invalid quantity encoding"]) in
  (forall data, is_json_string data = false -> quantity_decoder data = err)
  /\ (forall s, Py.startswith s "0x" = false -> quantity_decoder (PyStr s) = err)
  /\ (forall s, 3 < Py.len s -> String.get 2 s = Some "0"%char ->
        quantity_decoder (PyStr s) = err)
  /\ (forall s, Py.int16 (Py.slice_from 2 s) = Raise ValueError ->
        quantity_decoder (PyStr s) = err)
  /\ quantity_decoder (PyStr "0x0ff") = err
  /\ quantity_decoder (PyStr "ff") = err
  /\ quantity_decoder (PyInt 123) = err
  /\ quantity_decoder (PyStr "0xfg") = err.
Proof.
  cbv zeta. repeat split; try reflexivity.
  - intros [| | |s| |]; cbn; congruence.
  - intros s Hs. unfold quantity_decoder. by rewrite Hs.
  - intros s Hlen Hget. unfold quantity_decoder.
    destruct (negb (Py.startswith s "0x")); [done|].
    destruct (Z.ltb_spec 3 (Py.len s)); [|lia].
    by rewrite bool_decide_eq_true_2.
  - intros s Hs. unfold quantity_decoder.
    destruct (negb (Py.startswith s "0x")); [done|].
    destruct (_ && _); [done|]. by rewrite Hs.
Qed.

(** C6. [quantity_decoder] does not reject every string with a character
    that is no hexadecimal digit after the prefix: [int(data, 16)] takes a
    sign, surrounding white space and underscores between digits, so
    ["0x-1"] decodes to [-1], ["0x+1"] and ["0x 1"] to [1], ["0x1_0"] to
    [16]. *)
Theorem quantity_decoder_accepts_non_hex :
  quantity_decoder (PyStr "0x-1") = Ret (-1)
  /\ quantity_decoder (PyStr "0x+1") = Ret 1
  /\ quantity_decoder (PyStr "0x 1") = Ret 1
  /\ quantity_decoder (PyStr "0x1_0") = Ret 16.
Proof. repeat split; reflexivity. Qed.

(** [data_decoder] on a string raises [ValueError] or [AssertionError],
    never the parameter error: [decode_hex] signals bad digits with
    [ValueError], and the handler only catches [TypeError]. *)
Lemma data_decoder_raises s e :
  data_decoder (PyStr s) = Raise e -> e = ValueError \/ e = AssertionError.
Proof.
  rewrite data_decoder_str. cbv zeta.
  destruct (negb _); [destruct (_ <? _)|]; cbn [bind]; try (intros [= <-]; auto).
  all: unfold decode_hex;
    match goal with |- context [Py.fromhex ?q] =>
      destruct (Py.fromhex q) as [b|e'] eqn:E; [done|];
      apply (fromhex_raises _ _ _ (Nat.le_refl _)) in E as ->
    end; intros [= <-]; auto.
Qed.

(** C8. On ["0xzz"] (two characters after the prefix, neither a hexadecimal
    digit) [data_decoder] lets the [ValueError] of [decode_hex] through
    instead of raising [InvalidParams]; and on no string at all does it
    raise [InvalidParams]. *)
Theorem data_decoder_non_hex_escapes :
  data_decoder (PyStr "0xzz") = Raise ValueError
  /\ forall s,
       match data_decoder (PyStr s) with
       | Ret _ => True
       | Raise e => is_InvalidParams e = false
       end.
Proof.
  split; [reflexivity|]. intros s.
  destruct (data_decoder (PyStr s)) as [b|e] eqn:E; [done|].
  by destruct (data_decoder_raises s e E) as [-> | ->].
Qed.

(** ** The handlers *)

Section HandlerFacts.

Context {Address Branch Transaction MasterState : Type}.
Context {Address_cls : Serializable Address}.
Context {Branch_cls : Serializable Branch}.
Variable recipient : Address -> list byte.
Variable branch_value : Branch -> Z.
Variable new_transaction : EvmTransaction -> res Transaction.
Variable tx_hash : Transaction -> list byte.
Variable master_getTransactionCount :
  Address -> MasterState -> res (Branch * Z) * MasterState.
Variable master_addTx :
  Transaction -> Branch -> MasterState -> res unit * MasterState.

Local Abbreviation sendTx :=
  (sendTransaction recipient branch_value new_transaction tx_hash master_addTx).

Lemma bindM_lift {A B} (m : res A) (k : A -> M B) (st : MasterState) :
  bindM (lift m) k st =
    match m with
    | Ret a => k a st
    | Raise e => (Raise e, st)
    end.
Proof. unfold bindM, lift. by destruct m. Qed.

(** [branch_decoder] never returns a branch. *)
Lemma branch_decoder_None data (o : option Branch) :
  branch_decoder data = Ret o -> o = None.
Proof.
  unfold branch_decoder. destruct (obj_decoder data); cbn [bind]; congruence.
Qed.

Lemma getDataDefault_branch_None m (o : option Branch) :
  getDataDefault m "branch" branch_decoder None = Ret o -> o = None.
Proof.
  unfold getDataDefault. destruct (m !! "branch"); [|congruence].
  apply branch_decoder_None.
Qed.

(** What a failed field read can raise. *)
Lemma obj_decoder_raises {T} `{Serializable T} data (e : exn) :
  obj_decoder (T := T) data = Raise e ->
  is_InvalidParams e = true \/ data_decoder data = Raise e.
Proof.
  unfold obj_decoder. destruct (data_decoder data) as [raw|e']; cbn [bind].
  - destruct (deserialize raw); [done|]. intros [= <-]. by left.
  - intros [= <-]. by right.
Qed.

Lemma getDataDefault_quantity_raises m key d e :
  getDataDefault m key quantity_decoder d = Raise e -> is_InvalidParams e = true.
Proof.
  unfold getDataDefault. destruct (m !! key); [|done].
  by intros ->%quantity_decoder_raises.
Qed.

Lemma getDataDefault_some_quantity_raises m key e :
  getDataDefault m key (py_some quantity_decoder) None = Raise e ->
  is_InvalidParams e = true.
Proof.
  unfold getDataDefault, py_some. destruct (m !! key) as [x|]; [|done].
  destruct (quantity_decoder x) eqn:E; cbn [bind]; [done|].
  intros [= <-]. by apply quantity_decoder_raises in E as ->.
Qed.

Lemma getDataDefault_address_raises m key e :
  In key ["to"; "data"; "branch"; "withdrawTo"] ->
  getDataDefault m key (py_some (address_decoder (Address := Address))) None
    = Raise e ->
  is_InvalidParams e = true \/ data_field_error m e.
Proof.
  intros Hkey. unfold getDataDefault, py_some, address_decoder.
  destruct (m !! key) as [x|] eqn:Hx; [|done].
  destruct (obj_decoder x) eqn:E; cbn [bind]; [done|].
  intros [= <-]. apply obj_decoder_raises in E as [?|?]; [by left|].
  right. by exists key, x.
Qed.

Lemma getDataDefault_branch_raises m e :
  getDataDefault m "branch" (branch_decoder (Branch := Branch)) None = Raise e ->
  is_InvalidParams e = true \/ data_field_error m e.
Proof.
  unfold getDataDefault, branch_decoder.
  destruct (m !! "branch") as [x|] eqn:Hx; [|done].
  destruct (obj_decoder x) eqn:E; cbn [bind]; [done|].
  intros [= <-]. apply obj_decoder_raises in E as [?|?]; [by left|].
  right. exists "branch", x. repeat split; try done. cbn. tauto.
Qed.

Lemma getDataDefault_data_raises m e :
  getDataDefault m "data" data_decoder [] = Raise e -> data_field_error m e.
Proof.
  unfold getDataDefault. destruct (m !! "data") as [x|] eqn:Hx; [|done].
  intros E. exists "data", x. repeat split; try done. cbn. tauto.
Qed.

(** One field read of [sendTransaction]: case on its result, keep the
    equation, and close the failure case with the given tactic. *)
Ltac read_field fail_tac :=
  rewrite bindM_lift;
  match goal with
  | |- context [match getDataDefault ?m ?k ?d ?x with _ => _ end] =>
      let E := fresh "E" in
      destruct (getDataDefault m k d x) eqn:E; [|fail_tac E]
  end.

Ltac field_failure E :=
  eexists; split; [reflexivity|];
  first
    [ left; eapply getDataDefault_quantity_raises; exact E
    | left; eapply getDataDefault_some_quantity_raises; exact E
    | right; eapply getDataDefault_data_raises; exact E
    | eapply getDataDefault_branch_raises; exact E
    | eapply getDataDefault_address_raises; [|exact E]; cbn; tauto ].

(** C2. For every parameter mapping, [sendTransaction] raises and leaves the
    master's state as it was: the transaction is never built nor submitted.
    [branch_decoder] has no [return], so the branch is [None] whenever it is
    read without error and a check fires at the latest at "Missing branch".
    The exception is [InvalidParams], unless [data_decoder] itself fails on
    one of the fields [to], [data], [branch], [withdrawTo] that are present:
    its exception then goes through as it is. *)
Theorem sendTransaction_never_submits (m : gmap string pyval) (st : MasterState) :
  (forall data, match branch_decoder (Branch := Branch) data with
                | Ret o => o = None
                | Raise _ => True
                end)
  /\ exists e,
       sendTx (PyDict m) st = (Raise e, st) /\
       (is_InvalidParams e = true \/ data_field_error m e).
Proof.
  split.
  { intros data. destruct (branch_decoder data) eqn:E; [|done].
    by apply branch_decoder_None in E. }
  unfold sendTransaction. cbv zeta.
  do 12 read_field field_failure.
  match goal with
  | H : getDataDefault _ "branch" _ _ = Ret _ |- _ =>
      apply getDataDefault_branch_None in H as ->
  end.
  unfold raise, lift.
  match goal with
  | |- context [match ?nonce with Some _ => _ | None => _ end] =>
      destruct nonce; [|eexists; split; [reflexivity|by left]]
  end.
  destruct (negb _); eexists; (split; [reflexivity|by left]).
Qed.

(** C1. On a fully valid parameter object [sendTransaction] does not build
    or submit anything and returns no hash: the branch it has just decoded
    is lost by [branch_decoder], and the handler raises
    [InvalidParams("Missing branch")] with the master's state untouched. *)
Theorem sendTransaction_valid_payload_rejected
    (m : gmap string pyval) (st : MasterState) :
  valid_payload (Address := Address) (Branch := Branch) m ->
  sendTx (PyDict m) st = (Raise (InvalidParams ["Missing branch"]), st).
Proof.
  intros [(to & Hto) (g & Hg) (gp & Hgp) (val & Hval) (d & Hd)
          (v & Hv & Hv0) (r & Hr & Hr0) (s & Hs & Hs0)
          (xn & n & Hxn & Hn) (xb & b & Hxb & Hb) (w & Hw & _) (wt & Hwt)].
  assert (Hnonce :
    getDataDefault m "nonce" (py_some quantity_decoder) None = Ret (Some n)).
  { unfold getDataDefault, py_some. by rewrite Hxn, Hn. }
  assert (Hbranch :
    getDataDefault m "branch" (branch_decoder (Branch := Branch)) None = Ret None).
  { unfold getDataDefault, branch_decoder. by rewrite Hxb, Hb. }
  unfold sendTransaction. cbv zeta.
  rewrite bindM_lift, Hto, bindM_lift, Hg, bindM_lift, Hgp, bindM_lift, Hval,
    bindM_lift, Hd, bindM_lift, Hv, bindM_lift, Hr, bindM_lift, Hs,
    bindM_lift, Hnonce, bindM_lift, Hbranch, bindM_lift, Hw, bindM_lift, Hwt.
  apply Z.eqb_neq in Hv0, Hr0, Hs0. rewrite Hv0, Hr0, Hs0. reflexivity.
Qed.

Lemma data_decoder_raises_any data e :
  data_decoder data = Raise e -> is_InvalidParams e = false.
Proof.
  destruct data as [| | |s| |]; try (intros [= <-]; reflexivity).
  intros E. by destruct (data_decoder_raises s e E) as [-> | ->].
Qed.

Lemma obj_decoder_send_error {T} `{Serializable T} data (e : exn) :
  obj_decoder (T := T) data = Raise e -> send_error e.
Proof.
  unfold obj_decoder. destruct (data_decoder data) as [raw|e'] eqn:E; cbn [bind].
  - destruct (deserialize raw); [done|]. intros [= <-]. right. left. eauto.
  - intros [= <-]. right. right. by eapply data_decoder_raises_any.
Qed.

Lemma getDataDefault_send_error m e :
  (forall key d, getDataDefault m key quantity_decoder d = Raise e -> send_error e)
  /\ (forall key, getDataDefault m key (py_some quantity_decoder) None = Raise e ->
        send_error e)
  /\ (forall key,
        getDataDefault m key (py_some (address_decoder (Address := Address))) None
          = Raise e -> send_error e)
  /\ (getDataDefault m "branch" (branch_decoder (Branch := Branch)) None = Raise e ->
        send_error e)
  /\ (getDataDefault m "data" data_decoder [] = Raise e -> send_error e).
Proof.
  unfold getDataDefault, py_some, address_decoder, branch_decoder.
  repeat split; intros.
  all: repeat match goal with
       | H : match ?m0 !! ?k with _ => _ end = _ |- _ =>
           destruct (m0 !! k); [|discriminate H]
       | H : bind ?c _ = Raise _ |- _ =>
           let E := fresh "E" in
           destruct c eqn:E; cbn [bind] in H; [discriminate H|];
           injection H as <-
       end.
  - apply quantity_decoder_raises in H as ->. left. cbn. auto 10.
  - apply quantity_decoder_raises in E as ->. left. cbn. auto 10.
  - exact (obj_decoder_send_error _ _ E).
  - exact (obj_decoder_send_error _ _ E).
  - right. right. by eapply data_decoder_raises_any.
Qed.

(** On every mapping [sendTransaction] raises one of these, with the
    master's state unchanged. *)
Lemma sendTransaction_raises (m : gmap string pyval) (st : MasterState) :
  exists e, sendTx (PyDict m) st = (Raise e, st) /\ send_error e.
Proof.
  unfold sendTransaction. cbv zeta.
  do 12 (read_field ltac:(fun E =>
    eexists; split; [reflexivity|];
    match type of E with
    | _ = Raise ?e0 =>
        destruct (getDataDefault_send_error m e0) as (H1 & H2 & H3 & H4 & H5)
    end;
    first [ eapply H1; exact E | eapply H2; exact E | eapply H3; exact E
          | eapply H4; exact E | eapply H5; exact E ])).
  match goal with
  | H : getDataDefault _ "branch" _ _ = Ret _ |- _ =>
      apply getDataDefault_branch_None in H as ->
  end.
  unfold raise, lift.
  match goal with
  | |- context [match ?nonce with Some _ => _ | None => _ end] =>
      destruct nonce; [|eexists; split; [reflexivity|left; cbn; auto 10]]
  end.
  destruct (negb _); eexists; (split; [reflexivity|left; cbn; auto 10]).
Qed.

(** C5. Where [sendTransaction] does not raise what the design states.
    With only a nonce ([v], [r], [s] absent, hence zero) the message is
    "Mising v, r, s"; and on no mapping at all is the error
    "Missing v, r, s" or "Missing withdrawTo": the first is misspelt in the
    code, the second sits behind the branch check, which always fires. *)
Theorem sendTransaction_messages (st : MasterState) :
  sendTx (PyDict {[ "nonce" := PyStr "0x1" ]}) st
    = (Raise (InvalidParams ["Mising v, r, s"]), st)
  /\ forall m, exists e,
       sendTx (PyDict m) st = (Raise e, st) /\
       e <> InvalidParams ["Missing v, r, s"] /\
       e <> InvalidParams ["Missing withdrawTo"].
Proof.
  split; [reflexivity|]. intros m.
  destruct (sendTransaction_raises m st) as (e & He & Herr).
  exists e. split; [exact He|].
  destruct Herr as [Hin|[(c & ->)|Hnot]].
  - cbn in Hin. intuition (subst; congruence).
  - split; congruence.
  - split; intros ->; discriminate Hnot.
Qed.

(** C10. When the arguments decode, the master answers with a branch and
    a non-negative count, [getTransactionCount] returns a mapping whose
    ["count"] entry is the quantity encoding of the count, and whose
    ["branch"] entry is [None]: [branch_encoder] has no [return], the hex
    string [obj_encoder] computes for the branch is dropped. *)
Theorem getTransactionCount_result
    (address : pyval) (blockId : option pyval) (a : Address) (blk : pyval)
    (branch : Branch) (count : Z) (st st' : MasterState) :
  address_decoder address = Ret a ->
  block_id_decoder (default (PyStr "pending") blockId) = Ret blk ->
  master_getTransactionCount a st = (Ret (branch, count), st') ->
  0 <= count ->
  exists c d,
    quantity_encoder count = Ret c /\
    getTransactionCount master_getTransactionCount address blockId st
      = (Ret (PyDict d), st') /\
    d !! "count" = Some (PyStr c) /\
    d !! "branch" = Some PyNone /\
    d !! "branch" <> Some (PyStr (obj_encoder branch)).
Proof.
  intros Ha Hblk Hmaster Hcount.
  destruct (quantity_encoder_canonical count Hcount) as (t & Hc & _).
  eexists _, _. split; [exact Hc|].
  unfold getTransactionCount, decode_arg, getTransactionCount_body.
  rewrite bindM_lift, Ha, bindM_lift, Hblk.
  unfold bindM at 1. rewrite Hmaster. rewrite bindM_lift, Hc.
  unfold lift, branch_encoder, opt_str.
  split; [reflexivity|]. split; [|split].
  - by rewrite lookup_insert_ne, lookup_insert_eq.
  - by rewrite lookup_insert_eq.
  - by rewrite lookup_insert_eq.
Qed.

End HandlerFacts.

(** ** The handlers on the small environment *)

Example demo_valid_params_fields :
  getDataDefault Demo.valid_params "nonce" (py_some quantity_decoder) None
    = Ret (Some 0)
  /\ getDataDefault Demo.valid_params "to" (py_some address_decoder) None
     <> Ret (None : option Demo.Address).
Proof. split; [vm_compute; reflexivity|vm_compute; discriminate]. Qed.

Lemma demo_valid_params_valid :
  valid_payload (Address := Demo.Address) (Branch := Demo.Branch) Demo.valid_params.
Proof.
  split.
  1-5, 12: by (eexists; vm_compute; reflexivity).
  1-3: by (eexists; split; [vm_compute; reflexivity|discriminate]).
  - eexists _, _. split; vm_compute; reflexivity.
  - eexists _, _. split; vm_compute; reflexivity.
  - eexists. split; [vm_compute; reflexivity|]. intros _. eexists. vm_compute. reflexivity.
Defined.

(** The theorem on a parameter object with every field, in the small
    environment. *)
Lemma sendTransaction_valid_payload_rejected_witness :
  valid_payload (Address := Demo.Address) (Branch := Demo.Branch) Demo.valid_params
  /\ Demo.sendTransaction (PyDict Demo.valid_params) []
     = (Raise (InvalidParams ["Missing branch"]), []).
Proof.
  split; [exact demo_valid_params_valid|].
  apply (sendTransaction_valid_payload_rejected
           Demo.recipient Demo.branch_value Demo.new_transaction Demo.tx_hash
           Demo.master_addTx Demo.valid_params []).
  exact demo_valid_params_valid.
Defined.

(** The claim of C2 fails where it says the exception is always
    [InvalidParams]: with an odd-length [data] field of 65 digits the
    assertion of [data_decoder] fails and the [AssertionError] leaves
    [sendTransaction] as it is. *)
Lemma sendTransaction_raises_AssertionError :
  Demo.sendTransaction (PyDict {[ "data" := PyStr Demo.long_odd_data ]}) []
    = (Raise AssertionError, [])
  /\ is_InvalidParams AssertionError = false.
Proof. split; vm_compute; reflexivity. Qed.

(** The theorem of C10 in the small environment, on an empty master. *)
Lemma getTransactionCount_result_witness :
  exists c d,
    quantity_encoder 0 = Ret c /\
    Demo.getTransactionCount (PyStr Demo.an_address) None []
      = (Ret (PyDict d), []) /\
    d !! "count" = Some (PyStr c) /\
    d !! "branch" = Some PyNone /\
    d !! "branch" <> Some (PyStr (obj_encoder {| Demo.branch_raw := [x00; x00; x00; x01] |})).
Proof.
  eapply (getTransactionCount_result Demo.master_getTransactionCount
            (PyStr Demo.an_address) None _ (PyStr "pending") _ 0 [] []).
  - vm_compute. reflexivity.
  - reflexivity.
  - reflexivity.
  - lia.
Defined.

Example demo_getTransactionCount :
  Demo.getTransactionCount (PyStr Demo.an_address) None []
    = (Ret (PyDict (list_to_map [("branch", PyNone); ("count", PyStr "0x0")])), []).
Proof. vm_compute. reflexivity. Qed.

Example demo_sendTransaction_withdraw :
  Demo.sendTransaction
    (PyDict (list_to_map
       [("nonce", PyStr "0x1"); ("v", PyStr "0x1b"); ("r", PyStr "0x1");
        ("s", PyStr "0x2"); ("branch", PyStr "0x00000001");
        ("withdraw", PyStr "0x5")])) []
    = (Raise (InvalidParams ["Missing branch"]), []).
Proof. vm_compute. reflexivity. Qed.

(** * Further properties of the codec and the handlers *)

(** ** Quantities in canonical form *)

Section CanonicalFacts.
Import Py.

Lemma is_lower_hex_spec c :
  is_lower_hex c = true ->
  is_hex c = true /\ hex_char (digit_value c) = c.
Proof.
  destruct c as [[] [] [] [] [] [] [] []]; vm_compute; intros H;
    try discriminate H; split; reflexivity.
Qed.

Lemma hex_char_lower n : (n < 16)%N -> is_lower_hex (hex_char n) = true.
Proof.
  intros Hn. destruct n as [|p]; [reflexivity|].
  do 4 (try destruct p as [p|p|]); try lia; reflexivity.
Qed.

Lemma all_lower_hex_all_hex s : all_lower_hex s = true -> all_hex s = true.
Proof.
  induction s as [|c s IH]; [done|]. cbn [all_lower_hex all_hex].
  intros [Hc Hs]%andb_true_iff.
  destruct (is_lower_hex_spec c Hc) as [-> _]. auto.
Qed.

Lemma all_lower_hex_hexlify b : all_lower_hex (hexlify b) = true.
Proof.
  induction b as [|x b IH]; [done|]. cbn [hexlify all_lower_hex].
  rewrite !hex_char_lower by (apply byte_hi_lt || apply byte_lo_lt). done.
Qed.

Lemma all_lower_hex_lstrip c s :
  all_lower_hex s = true -> all_lower_hex (lstrip c s) = true.
Proof.
  induction s as [|a s IH]; [done|]. cbn [lstrip].
  destruct (Ascii.eqb a c); [|done].
  cbn [all_lower_hex]. intros [_ Hs]%andb_true_iff. auto.
Qed.

(** The digits written after an accumulator shift it by one hexadecimal
    place each. *)
Lemma hex_number_from_shift s acc :
  hex_number_from acc s = acc * 16 ^ len s + hex_number s.
Proof.
  unfold hex_number, len. revert acc.
  induction s as [|c s IH]; intros acc.
  - cbn. lia.
  - cbn [hex_number_from String.length].
    rewrite (IH (acc * 16 + _)), (IH (0 * 16 + _)).
    rewrite Nat2Z.inj_succ, Z.pow_succ_r by lia. lia.
Qed.

Lemma hex_number_bound s :
  all_hex s = true -> 0 <= hex_number s < 16 ^ len s.
Proof.
  unfold hex_number, len. induction s as [|c s IH]; [cbn; lia|].
  cbn [all_hex]. intros [Hc Hs]%andb_true_iff.
  destruct (is_hex_plain c Hc) as (_ & _ & _ & _ & _ & _ & _ & Hv).
  specialize (IH Hs).
  cbn [hex_number_from String.length].
  pose proof (hex_number_from_shift s (0 * 16 + Z.of_N (digit_value c))) as E.
  unfold hex_number, len in E. rewrite E.
  rewrite Nat2Z.inj_succ, Z.pow_succ_r by lia. nia.
Qed.

Lemma hex_number_cons c s :
  hex_number (String c s) = Z.of_N (digit_value c) * 16 ^ len s + hex_number s.
Proof.
  unfold hex_number at 1. cbn [hex_number_from].
  rewrite hex_number_from_shift. lia.
Qed.

(** Strings of lower-case digits of the same length that write the same
    number are the same string. *)
Lemma lower_hex_same_length s t :
  all_lower_hex s = true -> all_lower_hex t = true ->
  String.length s = String.length t -> hex_number s = hex_number t -> s = t.
Proof.
  revert t. induction s as [|c s IH]; intros [|d t]; try done.
  cbn [all_lower_hex String.length].
  intros [Hc Hs]%andb_true_iff [Hd Ht]%andb_true_iff [= Hlen].
  rewrite !hex_number_cons. unfold len. rewrite Hlen. intros Hnum.
  pose proof (hex_number_bound s (all_lower_hex_all_hex s Hs)) as Bs.
  pose proof (hex_number_bound t (all_lower_hex_all_hex t Ht)) as Bt.
  unfold len in Bs, Bt. rewrite Hlen in Bs.
  assert (Hdig : Z.of_N (digit_value c) = Z.of_N (digit_value d)) by nia.
  assert (Hrest : hex_number s = hex_number t) by nia.
  destruct (is_lower_hex_spec c Hc) as [_ Ec].
  destruct (is_lower_hex_spec d Hd) as [_ Ed].
  f_equal; [|by apply IH].
  rewrite <- Ec, <- Ed. f_equal. lia.
Qed.

(** The number written by canonical digits tells their count. *)
Lemma canonical_digits_range t :
  canonical_digits t = true ->
  all_lower_hex t = true /\ t <> EmptyString /\
  (t = "0" \/ 16 ^ (len t - 1) <= hex_number t < 16 ^ len t).
Proof.
  unfold canonical_digits. intros [Hlow Hhead]%andb_true_iff.
  split; [done|]. destruct t as [|c r]; [done|]. split; [done|].
  pose proof (hex_number_bound _ (all_lower_hex_all_hex _ Hlow)) as B.
  cbn [all_lower_hex] in Hlow. apply andb_true_iff in Hlow as [Hc Hr].
  pose proof (hex_number_bound _ (all_lower_hex_all_hex _ Hr)) as Br.
  destruct (Ascii.eqb_spec c "0") as [->|Hc0].
  - destruct r; [by left|done].
  - right. split; [|apply B].
    rewrite hex_number_cons. unfold len. cbn [String.length].
    replace (Z.of_nat (S (String.length r)) - 1) with (Z.of_nat (String.length r)) by lia.
    assert (0 < Z.of_N (digit_value c)).
    { destruct (is_lower_hex_spec c Hc) as [_ Ec].
      destruct (digit_value c) eqn:Ev; [|lia].
      exfalso. apply Hc0. rewrite <- Ec. reflexivity. }
    unfold len in Br.
    assert (0 < 16 ^ Z.of_nat (String.length r)) by (apply Z.pow_pos_nonneg; lia).
    nia.
Qed.

Lemma canonical_digits_unique s t :
  canonical_digits s = true -> canonical_digits t = true ->
  hex_number s = hex_number t -> s = t.
Proof.
  intros Hs Ht Hnum.
  destruct (canonical_digits_range s Hs) as (Ls & Ns & Rs).
  destruct (canonical_digits_range t Ht) as (Lt & Nt & Rt).
  assert (Hpos : forall u, u <> EmptyString -> 1 <= len u).
  { intros [|? ?]; [done|]. unfold len. cbn [String.length]. lia. }
  pose proof (Hpos s Ns) as Hs1. pose proof (Hpos t Nt) as Ht1.
  assert (Hmono : forall a b, 0 <= a -> a <= b -> 16 ^ a <= 16 ^ b)
    by (intros; apply Z.pow_le_mono_r; lia).
  assert (Hone : forall u, 0 <= u -> 1 <= 16 ^ u)
    by (intros; pose proof (Z.pow_pos_nonneg 16 u); lia).
  destruct Rs as [->|Rs], Rt as [->|Rt]; [done| | |].
  - change (hex_number "0") with 0 in Hnum. pose proof (Hone (len t - 1)). lia.
  - change (hex_number "0") with 0 in Hnum. pose proof (Hone (len s - 1)). lia.
  - apply lower_hex_same_length; try done.
    destruct (Z.lt_trichotomy (len s) (len t)) as [Hlt|[Heq|Hgt]].
    + pose proof (Hmono (len s) (len t - 1)). lia.
    + unfold len in Heq. lia.
    + pose proof (Hmono (len t) (len s - 1)). lia.
Qed.

(** What [quantity_encoder] writes after ["0x"] is canonical. *)
Lemma quantity_encoder_digits x :
  0 <= x ->
  exists t, quantity_encoder x = Ret ("0x" ++ t) /\
            canonical_digits t = true /\ hex_number t = x.
Proof.
  intros Hx. destruct (int_to_big_endian_value x Hx) as (b & Hb & Hval).
  unfold quantity_encoder. rewrite Hb. cbn [bind]. unfold encode_hex.
  assert (Hnum : hex_number (lstrip "0" (hexlify b)) = x).
  { rewrite hex_number_lstrip. unfold hex_number.
    by rewrite hex_number_hexlify. }
  assert (Hlow : all_lower_hex (lstrip "0" (hexlify b)) = true)
    by apply all_lower_hex_lstrip, all_lower_hex_hexlify.
  destruct (lstrip "0" (hexlify b)) as [|a r] eqn:E.
  - exists "0". cbn [str_or]. by repeat split.
  - exists (String a r). cbn [str_or]. repeat split; try done.
    unfold canonical_digits. rewrite Hlow. cbn [andb].
    destruct r; [done|]. apply negb_true_iff, Ascii.eqb_neq.
    by eapply lstrip_head.
Qed.

End CanonicalFacts.

(** ** Padded data encoding *)

(** C9. With a length [L], [data_encoder] writes ["0x"], then as many ["0"]
    as are missing to reach [2 * L] characters (none when the buffer is
    already [L] bytes or longer), then all the hexadecimal digits of the
    buffer: the digits are right-justified to exactly [2 * L] characters when
    the buffer fits and never truncated when it does not.  The digits are
    those of the buffer: two lower-case hexadecimal digits for each byte,
    which read back as the bytes and write the number the buffer holds.  And
    [data_encoder(b"\xff", length=3)] is ["0x0000ff"]. *)
Theorem data_encoder_rjust (b : list byte) (L : Z) :
  data_encoder b (Some L) =
    "0x" ++ Py.replicate (Z.to_nat (2 * (L - Z.of_nat (List.length b)))) "0"
         ++ encode_hex b
  /\ Py.len (data_encoder b (Some L)) = 2 + 2 * Z.max L (Z.of_nat (List.length b))
  /\ data_encoder [xff] (Some 3) = "0x0000ff"
  /\ decode_hex (encode_hex b) = Ret b
  /\ all_lower_hex (encode_hex b) = true
  /\ String.length (encode_hex b) = (2 * List.length b)%nat
  /\ hex_number (encode_hex b) = big_endian_value b.
Proof.
  assert (E : data_encoder b (Some L) =
    "0x" ++ Py.replicate (Z.to_nat (2 * (L - Z.of_nat (List.length b)))) "0"
         ++ encode_hex b).
  { unfold data_encoder, Py.rjust, Py.times, encode_hex.
    rewrite len_hexlify.
    destruct (Z.leb_spec (L * 2) (2 * Z.of_nat (List.length b))) as [H|H].
    - replace (Z.to_nat (2 * (L - Z.of_nat (List.length b)))) with O by lia.
      reflexivity.
    - do 3 f_equal. lia. }
  split; [exact E|]. split; [|split; [reflexivity|]].
  - rewrite E. unfold encode_hex.
    rewrite len_0x. unfold Py.len.
    rewrite str_length_append, str_length_replicate, length_hexlify. lia.
  - unfold decode_hex, encode_hex. repeat split.
    + apply fromhex_hexlify.
    + apply all_lower_hex_hexlify.
    + apply length_hexlify.
    + apply hex_number_hexlify.
Qed.

(** [quantity_decoder] on ["0x"] followed by hexadecimal digits of either
    case, with no leading ["0"] unless the digit is alone. *)
Lemma quantity_decoder_digits t :
  Py.all_hex t = true -> t <> EmptyString ->
  (String.length t = 1%nat \/ String.get 0 t <> Some "0"%char) ->
  quantity_decoder (PyStr ("0x" ++ t)) = Ret (hex_number t).
Proof.
  intros Hhex Hne Hhead.
  unfold quantity_decoder. rewrite startswith_0x. cbn [negb].
  rewrite slice_from_2_0x, (int16_all_hex t Hhex Hne).
  rewrite len_0x. rewrite !append_String, append_empty. cbn [String.get].
  destruct Hhead as [H1|Hc].
  - unfold Py.len. rewrite H1.
    destruct (bool_decide _); reflexivity.
  - rewrite (bool_decide_eq_false_2 _ Hc). by rewrite andb_false_r.
Qed.

Lemma canonical_digits_head t :
  canonical_digits t = true ->
  Py.all_hex t = true /\ t <> EmptyString /\
  (String.length t = 1%nat \/ String.get 0 t <> Some "0"%char).
Proof.
  intros Ht. destruct (canonical_digits_range t Ht) as (Hlow & Hne & _).
  split; [by apply all_lower_hex_all_hex|]. split; [done|].
  unfold canonical_digits in Ht. apply andb_true_iff in Ht as [_ Ht].
  destruct t as [|c [|d r]]; [done|by left|right].
  cbn [String.get]. apply negb_true_iff, Ascii.eqb_neq in Ht. congruence.
Qed.

(** X1. For every non-negative integer, [quantity_encoder] returns ["0x"]
    followed by canonical digits: lower-case hexadecimal, at least one, no
    leading ["0"] unless the digits are just ["0"]; and they write the
    integer. *)
Theorem quantity_encoder_canonical_form (x : Z) :
  0 <= x ->
  exists t, quantity_encoder x = Ret ("0x" ++ t) /\
            canonical_digits t = true /\ hex_number t = x.
Proof. apply quantity_encoder_digits. Qed.

Lemma quantity_encoder_canonical_form_witness :
  0 <= 255 /\
  exists t, quantity_encoder 255 = Ret ("0x" ++ t) /\
            canonical_digits t = true /\ hex_number t = 255.
Proof. split; [lia|]. apply (quantity_encoder_canonical_form 255). lia. Defined.

(** X2. On a canonical quantity string the codec round-trips the other
    way: [quantity_decoder] returns a number and [quantity_encoder] of that
    number is the string itself. *)
Theorem quantity_encoder_decoder (t : string) :
  canonical_digits t = true ->
  exists n, quantity_decoder (PyStr ("0x" ++ t)) = Ret n /\
            quantity_encoder n = Ret ("0x" ++ t).
Proof.
  intros Ht. destruct (canonical_digits_head t Ht) as (Hhex & Hne & Hhead).
  exists (hex_number t). split; [by apply quantity_decoder_digits|].
  pose proof (hex_number_bound t Hhex) as [Hpos _].
  destruct (quantity_encoder_digits _ Hpos) as (t' & Henc & Hcan & Hnum).
  by rewrite Henc, (canonical_digits_unique t' t Hcan Ht Hnum).
Qed.

Lemma quantity_encoder_decoder_witness :
  canonical_digits "de0b6b3a7640000" = true /\
  exists n, quantity_decoder (PyStr "0xde0b6b3a7640000") = Ret n /\
            quantity_encoder n = Ret "0xde0b6b3a7640000".
Proof.
  split; [reflexivity|].
  apply (quantity_encoder_decoder "de0b6b3a7640000"). reflexivity.
Defined.

(** X3. [quantity_decoder] takes the digits of either case: on ["0x"]
    followed by one hexadecimal digit, or by several of which the first is
    not ["0"], it returns the number they write, which is not negative. *)
Theorem quantity_decoder_hex_digits (t : string) :
  Py.all_hex t = true -> t <> EmptyString ->
  (String.length t = 1%nat \/ String.get 0 t <> Some "0"%char) ->
  quantity_decoder (PyStr ("0x" ++ t)) = Ret (hex_number t) /\
  0 <= hex_number t < 16 ^ Py.len t.
Proof.
  intros Hhex Hne Hhead. split; [by apply quantity_decoder_digits|].
  by apply hex_number_bound.
Qed.

Lemma quantity_decoder_hex_digits_witness :
  quantity_decoder (PyStr "0xDeadBeef") = Ret 3735928559 /\
  0 <= 3735928559 < 16 ^ 8.
Proof.
  apply (quantity_decoder_hex_digits "DeadBeef");
    [reflexivity | discriminate | right; discriminate].
Defined.

(** X4. Whatever it is given, [quantity_decoder] either returns or raises
    [InvalidParams("Invalid quantity encoding")]: its [assert not success]
    never fails and no other exception leaves it. *)
Theorem quantity_decoder_only_parameter_error (data : pyval) :
  match quantity_decoder data with
  | Ret _ => True
  | Raise e => e = InvalidParams ["Invalid quantity encoding"]
  end.
Proof.
  destruct (quantity_decoder data) as [n|e] eqn:E; [done|].
  by apply quantity_decoder_raises in E.
Qed.

(** ** Data with and without padding or prefix *)

(** Decoding the plain encoding of a buffer. *)
Lemma data_decoder_plain b : data_decoder (PyStr (data_encoder b None)) = Ret b.
Proof.
  unfold data_encoder, data_decoder, encode_hex, decode_hex.
  rewrite startswith_0x. cbn [negb].
  rewrite len_0x, len_hexlify, mod2_even_len. cbn [negb bind].
  by rewrite slice_from_2_0x, fromhex_hexlify.
Qed.

Lemma hexlify_app a b : Py.hexlify (a ++ b)%list = Py.hexlify a ++ Py.hexlify b.
Proof.
  induction a as [|x a IH]; [done|].
  cbn [app Py.hexlify]. by rewrite IH, !append_String.
Qed.

Lemma hexlify_zeros k :
  Py.hexlify (repeat x00 k) = Py.replicate (2 * k) "0".
Proof.
  induction k as [|k IH]; [done|].
  replace (2 * S k)%nat with (S (S (2 * k))) by lia.
  cbn [repeat Py.hexlify Py.replicate]. by rewrite IH.
Qed.

(** X5. Decoding what [data_encoder] writes with a length gives the buffer
    with zero bytes in front, as many as it was short of the length (none
    when it was as long or longer). *)
Theorem data_decoder_encoder_padded (b : list byte) (L : Z) :
  data_decoder (PyStr (data_encoder b (Some L)))
    = Ret (repeat x00 (Z.to_nat (L - Z.of_nat (List.length b))) ++ b)%list.
Proof.
  set (k := Z.to_nat (L - Z.of_nat (List.length b))).
  assert (E : data_encoder b (Some L) = data_encoder (repeat x00 k ++ b)%list None).
  { unfold data_encoder, Py.rjust, Py.times, encode_hex.
    rewrite hexlify_app, hexlify_zeros, len_hexlify.
    destruct (Z.leb_spec (L * 2) (2 * Z.of_nat (List.length b))) as [H|H].
    - replace k with O by lia. reflexivity.
    - do 3 f_equal. lia. }
  rewrite E. apply data_decoder_plain.
Qed.

Lemma hexlify_no_prefix b : Py.startswith (Py.hexlify b) "0x" = false.
Proof.
  destruct b as [|x b]; [done|]. cbn [Py.hexlify Py.startswith].
  destruct (hex_char_spec _ (byte_lo_lt x)) as (_ & _ & _ & -> & _).
  by rewrite andb_false_r.
Qed.

(** X6. The ["0x"] prefix is optional for [data_decoder]: the bare
    hexadecimal digits of a buffer decode to the buffer as well. *)
Theorem data_decoder_without_prefix (b : list byte) :
  data_decoder (PyStr (encode_hex b)) = Ret b.
Proof.
  unfold data_decoder, encode_hex, decode_hex.
  rewrite hexlify_no_prefix. cbn [negb].
  rewrite len_0x, len_hexlify, mod2_even_len. cbn [negb bind].
  by rewrite slice_from_2_0x, fromhex_hexlify.
Qed.

(** ** The echo handler *)

(** X7. [echo] returns the encoding of a buffer unchanged; whenever it
    returns, its result is the encoding of what [data_decoder] read and
    echoing that result again changes nothing; when it raises, the exception
    is the one of [data_decoder].  The master's state is never touched. *)
Theorem echo_round_trip {MasterState : Type} (st : MasterState) :
  (forall b, echo (PyStr (data_encoder b None)) st
             = (Ret (data_encoder b None), st))
  /\ forall data,
       match echo data st with
       | (Ret r, st') =>
           st' = st /\
           (exists b, data_decoder data = Ret b /\ r = data_encoder b None) /\
           echo (PyStr r) st = (Ret r, st)
       | (Raise e, st') => st' = st /\ data_decoder data = Raise e
       end.
Proof.
  assert (Henc : forall b, echo (PyStr (data_encoder b None)) st
                           = (Ret (data_encoder b None), st)).
  { intros b. unfold echo, decode_arg, encode_res.
    rewrite bindM_lift, data_decoder_plain. reflexivity. }
  split; [exact Henc|]. intros data.
  unfold echo at 1, decode_arg, encode_res. rewrite bindM_lift.
  destruct (data_decoder data) as [b|e]; [|done].
  cbn. split; [done|]. split; [by exists b|]. apply Henc.
Qed.

(** ** Hash decoders *)

(** X8. The two hash decoders return 32-byte buffers only and agree on
    them: the encoding of a buffer decodes to the buffer when it has 32
    bytes, and is refused otherwise, each decoder with its own message. *)
Theorem hash_decoders_32_bytes :
  (forall b,
     block_hash_decoder (PyStr (data_encoder b None))
       = (if Nat.eqb (List.length b) 32 then Ret b
          else Raise (InvalidParams ["Block hashes must be 32 bytes long"]))
     /\ tx_hash_decoder (PyStr (data_encoder b None))
        = (if Nat.eqb (List.length b) 32 then Ret b
           else Raise (InvalidParams ["Transaction hashes must be 32 bytes long"])))
  /\ forall data,
       match block_hash_decoder data with
       | Ret h => List.length h = 32%nat /\ tx_hash_decoder data = Ret h
       | Raise e =>
           match tx_hash_decoder data with
           | Ret _ => False
           | Raise _ => True
           end
       end.
Proof.
  split.
  - intros b. unfold block_hash_decoder, tx_hash_decoder.
    rewrite data_decoder_plain. cbn [bind].
    by destruct (Nat.eqb (List.length b) 32).
  - intros data. unfold block_hash_decoder, tx_hash_decoder.
    destruct (data_decoder data) as [b|e]; cbn [bind]; [|done].
    destruct (Nat.eqb_spec (List.length b) 32); cbn [negb]; done.
Qed.

(** [data_decoder] on an odd number of hexadecimal digits, at most 63. *)
Lemma data_decoder_odd_digits s :
  Py.all_hex (hex_digits_of s) = true ->
  Py.len (hex_digits_of s) mod 2 = 1 -> Py.len (hex_digits_of s) <= 63 ->
  exists b, data_decoder (PyStr s) = Ret b /\ List.length b = 32%nat /\
            big_endian_value b = hex_number (hex_digits_of s).
Proof.
  intros Hhex Hodd Hle. rewrite data_decoder_str. cbv zeta.
  set (p := hex_digits_of s) in *.
  rewrite Hodd. cbn [Z.eqb negb].
  destruct (Z.ltb_spec (Py.len p) 64) as [_|]; [|lia]. cbn [bind].
  set (q := Py.times "0" (64 - Py.len p) ++ p).
  assert (Hlen : String.length q = (2 * 32)%nat).
  { unfold q, Py.times. rewrite str_length_append, str_length_replicate.
    unfold Py.len in *. lia. }
  assert (Hq : Py.all_hex q = true)
    by (apply all_hex_append; [apply all_hex_zeros|done]).
  destruct (fromhex_all_hex 32 q Hlen Hq) as (b & Hb & Hbl & Hbv).
  unfold decode_hex. rewrite Hb. exists b. repeat split; try done.
  unfold big_endian_value. rewrite Hbv. apply hex_number_zeros.
Qed.

(** X9. Short odd-length input is a valid hash: an odd number of
    hexadecimal digits, at most 63, with or without the prefix, is taken by
    both hash decoders as the 32-byte number the digits write. *)
Theorem hash_decoders_accept_short_odd (s : string) :
  Py.all_hex (hex_digits_of s) = true ->
  Py.len (hex_digits_of s) mod 2 = 1 -> Py.len (hex_digits_of s) <= 63 ->
  exists h,
    block_hash_decoder (PyStr s) = Ret h /\ tx_hash_decoder (PyStr s) = Ret h /\
    List.length h = 32%nat /\
    big_endian_value h = hex_number (hex_digits_of s).
Proof.
  intros Hhex Hodd Hle.
  destruct (data_decoder_odd_digits s Hhex Hodd Hle) as (b & Hb & Hl & Hv).
  exists b. unfold block_hash_decoder, tx_hash_decoder.
  rewrite Hb. cbn [bind]. rewrite Hl. by repeat split.
Qed.

Lemma hash_decoders_accept_short_odd_witness :
  exists h,
    block_hash_decoder (PyStr "0x1") = Ret h /\ tx_hash_decoder (PyStr "0x1") = Ret h /\
    List.length h = 32%nat /\ big_endian_value h = 1.
Proof.
  apply (hash_decoders_accept_short_odd "0x1");
    [reflexivity | reflexivity | vm_compute; discriminate].
Defined.

(** ** Block identifiers *)

Lemma block_id_decoder_0x t :
  block_id_decoder (PyStr ("0x" ++ t))
    = do n <- quantity_decoder (PyStr ("0x" ++ t)); Ret (PyInt n).
Proof.
  unfold block_id_decoder. rewrite !append_String, append_empty.
  rewrite !bool_decide_eq_false_2 by discriminate. reflexivity.
Qed.

(** X10. [block_id_decoder] composed with [quantity_encoder]: the encoding
    of a block number decodes to that number; [None] and the tags
    ["latest"], ["earliest"], ["pending"] are returned as they are; and
    whatever it is given, it returns the value itself (a tag or [None]) or
    the number [quantity_decoder] reads, and raises nothing but the quantity
    error. *)
Theorem block_id_decoder_quantity :
  (forall n, 0 <= n ->
     exists s, quantity_encoder n = Ret s /\
               block_id_decoder (PyStr s) = Ret (PyInt n))
  /\ (forall data,
        In data [PyNone; PyStr "latest"; PyStr "earliest"; PyStr "pending"] ->
        block_id_decoder data = Ret data)
  /\ forall data,
       match block_id_decoder data with
       | Ret v =>
           (v = data /\
            In data [PyNone; PyStr "latest"; PyStr "earliest"; PyStr "pending"])
           \/ exists n, v = PyInt n /\ quantity_decoder data = Ret n
       | Raise e => e = InvalidParams ["Invalid quantity encoding"]
       end.
Proof.
  split.
  - intros n Hn.
    destruct (quantity_encoder_digits n Hn) as (t & Ht & Hcan & Hnum).
    destruct (canonical_digits_head t Hcan) as (Hhex & Hne & Hhead).
    eexists. split; [exact Ht|].
    by rewrite block_id_decoder_0x, quantity_decoder_digits, Hnum.
  - split; [intros data [<-|[<-|[<-|[<-|[]]]]]; reflexivity|].
    intros data.
    assert (Hq :
      match (do n <- quantity_decoder data; Ret (PyInt n)) with
      | Ret v => exists n, v = PyInt n /\ quantity_decoder data = Ret n
      | Raise e => e = InvalidParams ["Invalid quantity encoding"]
      end).
    { destruct (quantity_decoder data) as [n|e] eqn:E; cbn [bind]; [eauto|].
      by apply quantity_decoder_raises in E. }
    unfold block_id_decoder.
    destruct data as [| | |tag| |]; try (destruct (_ : res pyval); by eauto).
    + left. split; [done|]. cbn. auto.
    + destruct (bool_decide (tag = "latest")) eqn:E1;
        [apply bool_decide_eq_true in E1 as ->; left; split; [done|cbn; auto]|].
      destruct (bool_decide (tag = "earliest")) eqn:E2;
        [apply bool_decide_eq_true in E2 as ->; left; split; [done|cbn; auto]|].
      destruct (bool_decide (tag = "pending")) eqn:E3;
        [apply bool_decide_eq_true in E3 as ->; left; split; [done|cbn; auto 6]|].
      cbn [orb]. destruct (do n <- quantity_decoder (PyStr tag); Ret (PyInt n));
        [by right|done].
Qed.

(** ** Domain objects *)

(** X11. Decoding an encoded object is [deserialize] after [serialize]:
    [obj_decoder] on what [obj_encoder] wrote returns what [deserialize]
    makes of the serialised bytes, and a failure of [deserialize] comes out
    wrapped in [InvalidParams].  In particular an address whose
    serialisation deserialises to itself survives
    [address_encoder] then [address_decoder]. *)
Theorem obj_decoder_encoder {T : Type} `{Serializable T} (o : T) :
  obj_decoder (PyStr (obj_encoder o))
    = match deserialize (serialize o) with
      | Ret o' => Ret o'
      | Raise cause => Raise (InvalidParamsOf cause)
      end
  /\ (deserialize (serialize o) = Ret o ->
      address_decoder (PyStr (address_encoder o)) = Ret o).
Proof.
  assert (E : obj_decoder (PyStr (obj_encoder o))
    = match deserialize (serialize o) with
      | Ret o' => Ret o'
      | Raise cause => Raise (InvalidParamsOf cause)
      end).
  { unfold obj_decoder, obj_encoder.
    change ("0x" ++ encode_hex (serialize o)) with (data_encoder (serialize o) None).
    by rewrite data_decoder_plain. }
  split; [exact E|]. intros Hrt.
  unfold address_decoder, address_encoder. by rewrite E, Hrt.
Qed.

Lemma obj_decoder_encoder_witness :
  let a := {| Demo.address_raw := repeat x07 24 |} in
  deserialize (serialize a) = Ret a /\
  address_decoder (PyStr (address_encoder a)) = Ret a.
Proof.
  intros a. split; [reflexivity|].
  apply (obj_decoder_encoder a). reflexivity.
Defined.

(** X12. [obj_decoder] raises [InvalidParams] exactly for a failure of
    [deserialize], whose exception it carries; every other exception it
    raises is the one [data_decoder] raised, and is no [InvalidParams]. *)
Theorem obj_decoder_error_wrapping {T : Type} `{Serializable T} (data : pyval) :
  match obj_decoder (T := T) data with
  | Ret o => exists raw, data_decoder data = Ret raw /\ deserialize raw = Ret o
  | Raise e =>
      (data_decoder data = Raise e /\ is_InvalidParams e = false)
      \/ exists raw cause,
           data_decoder data = Ret raw /\ deserialize raw = Raise cause /\
           e = InvalidParamsOf cause
  end.
Proof.
  unfold obj_decoder.
  destruct (data_decoder data) as [raw|e] eqn:E; cbn [bind].
  - destruct (deserialize raw) as [o|cause] eqn:D; [by exists raw|].
    right. by exists raw, cause.
  - left. split; [done|]. by eapply data_decoder_raises_any.
Qed.

(** ** More on the handlers *)

Section HandlerPipeline.

Context {Address Branch Transaction MasterState : Type}.
Context {Address_cls : Serializable Address}.
Context {Branch_cls : Serializable Branch}.
Variable recipient : Address -> list byte.
Variable branch_value : Branch -> Z.
Variable new_transaction : EvmTransaction -> res Transaction.
Variable tx_hash : Transaction -> list byte.
Variable master_getTransactionCount :
  Address -> MasterState -> res (Branch * Z) * MasterState.
Variable master_addTx :
  Transaction -> Branch -> MasterState -> res unit * MasterState.

Local Abbreviation sendTx :=
  (sendTransaction recipient branch_value new_transaction tx_hash master_addTx).
Local Abbreviation getTxCount :=
  (getTransactionCount master_getTransactionCount).

(** X13. [getTransactionCount] decodes before it calls: an address that
    does not decode fails the call with the decoder's exception, whatever
    the block identifier, and the master is not consulted; so does a block
    identifier that does not decode, once the address has; and a failure of
    the master comes out unchanged. *)
Theorem getTransactionCount_decodes_first
    (address : pyval) (blockId : option pyval) (st : MasterState) :
  match address_decoder address with
  | Raise e => getTxCount address blockId st = (Raise e, st)
  | Ret a =>
      match block_id_decoder (default (PyStr "pending") blockId) with
      | Raise e => getTxCount address blockId st = (Raise e, st)
      | Ret _ =>
          match master_getTransactionCount a st with
          | (Raise e, st') => getTxCount address blockId st = (Raise e, st')
          | (Ret _, _) => True
          end
      end
  end.
Proof.
  unfold getTransactionCount, decode_arg. rewrite bindM_lift.
  destruct (address_decoder address) as [a|e]; [|done].
  rewrite bindM_lift.
  destruct (block_id_decoder _) as [blk|e]; [|done].
  unfold getTransactionCount_body, bindM at 1.
  by destruct (master_getTransactionCount a st) as [[[br c]|e] st'].
Qed.

(** X14. The block identifier is decoded and then ignored: two block
    identifiers that both decode give the same answer. *)
Theorem getTransactionCount_ignores_blockId
    (address : pyval) (blockId1 blockId2 : option pyval) (v1 v2 : pyval)
    (st : MasterState) :
  block_id_decoder (default (PyStr "pending") blockId1) = Ret v1 ->
  block_id_decoder (default (PyStr "pending") blockId2) = Ret v2 ->
  getTxCount address blockId1 st = getTxCount address blockId2 st.
Proof.
  intros H1 H2. unfold getTransactionCount, decode_arg.
  rewrite !bindM_lift.
  destruct (address_decoder address) as [a|e]; [|done].
  by rewrite !bindM_lift, H1, H2.
Qed.

End HandlerPipeline.

Lemma getTransactionCount_ignores_blockId_witness :
  Demo.getTransactionCount (PyStr Demo.an_address) None []
  = Demo.getTransactionCount (PyStr Demo.an_address) (Some (PyStr "0x5")) [].
Proof.
  apply (getTransactionCount_ignores_blockId Demo.master_getTransactionCount
           (PyStr Demo.an_address) None (Some (PyStr "0x5"))
           (PyStr "pending") (PyInt 5) []); reflexivity.
Defined.

Section SendTransactionFields.

Context {Address Branch Transaction MasterState : Type}.
Context {Address_cls : Serializable Address}.
Context {Branch_cls : Serializable Branch}.
Variable recipient : Address -> list byte.
Variable branch_value : Branch -> Z.
Variable new_transaction : EvmTransaction -> res Transaction.
Variable tx_hash : Transaction -> list byte.
Variable master_addTx :
  Transaction -> Branch -> MasterState -> res unit * MasterState.

Local Abbreviation sendTx :=
  (sendTransaction recipient branch_value new_transaction tx_hash master_addTx).

(** [sendTransaction] depends on its parameter object through the keys it
    looks up only, and through ["startgas"] and ["gasprice"] only when
    ["gas"] and ["gasPrice"] are absent. *)
Lemma sendTransaction_same_fields (m1 m2 : gmap string pyval) (st : MasterState) :
  (forall key,
     In key ["to"; "gas"; "gasPrice"; "value"; "data"; "v"; "r"; "s";
             "nonce"; "branch"; "withdraw"; "withdrawTo"] ->
     m1 !! key = m2 !! key) ->
  (m2 !! "gas" = None -> m1 !! "startgas" = m2 !! "startgas") ->
  (m2 !! "gasPrice" = None -> m1 !! "gasprice" = m2 !! "gasprice") ->
  sendTx (PyDict m1) st = sendTx (PyDict m2) st.
Proof.
  intros Hkeys Hstartgas Hgasprice.
  assert (Hget : forall A key (d : pyval -> res A) def,
    m1 !! key = m2 !! key -> getDataDefault m1 key d def = getDataDefault m2 key d def).
  { intros A key d def E. unfold getDataDefault. by rewrite E. }
  assert (Hgas : forall def,
    getDataDefault m1
      (if bool_decide (is_Some (m1 !! "gas")) then "gas" else "startgas")
      quantity_decoder def
    = getDataDefault m2
      (if bool_decide (is_Some (m2 !! "gas")) then "gas" else "startgas")
      quantity_decoder def).
  { intros def. rewrite (Hkeys "gas") by (cbn; auto 20).
    destruct (m2 !! "gas") as [x|] eqn:E.
    - rewrite bool_decide_eq_true_2 by eauto.
      apply Hget, Hkeys. cbn; auto 20.
    - rewrite bool_decide_eq_false_2 by (by intros [? ?]).
      apply Hget. by apply Hstartgas. }
  assert (Hprice : forall def,
    getDataDefault m1
      (if bool_decide (is_Some (m1 !! "gasPrice")) then "gasPrice" else "gasprice")
      quantity_decoder def
    = getDataDefault m2
      (if bool_decide (is_Some (m2 !! "gasPrice")) then "gasPrice" else "gasprice")
      quantity_decoder def).
  { intros def. rewrite (Hkeys "gasPrice") by (cbn; auto 20).
    destruct (m2 !! "gasPrice") as [x|] eqn:E.
    - rewrite bool_decide_eq_true_2 by eauto.
      apply Hget, Hkeys. cbn; auto 20.
    - rewrite bool_decide_eq_false_2 by (by intros [? ?]).
      apply Hget. by apply Hgasprice. }
  unfold sendTransaction. cbv zeta. rewrite Hgas, Hprice.
  rewrite (Hget _ "to"), (Hget _ "value"), (Hget _ "data"), (Hget _ "v"),
    (Hget _ "r"), (Hget _ "s"), (Hget _ "nonce"), (Hget _ "branch"),
    (Hget _ "withdraw"), (Hget _ "withdrawTo")
    by (apply Hkeys; cbn; auto 20).
  reflexivity.
Qed.

(** X15. What [sendTransaction] reads: a key outside its fourteen keys
    changes nothing; ["startgas"] is not looked at when ["gas"] is present,
    nor ["gasprice"] when ["gasPrice"] is. *)
Theorem sendTransaction_reads_its_keys_only
    (m : gmap string pyval) (st : MasterState) :
  (forall key x, ~ In key sendTransaction_keys ->
     sendTx (PyDict (<[key := x]> m)) st = sendTx (PyDict m) st)
  /\ (forall x, is_Some (m !! "gas") ->
        sendTx (PyDict (<["startgas" := x]> m)) st = sendTx (PyDict m) st)
  /\ (forall x, is_Some (m !! "gasPrice") ->
        sendTx (PyDict (<["gasprice" := x]> m)) st = sendTx (PyDict m) st).
Proof.
  split; [|split].
  - intros key x Hkey. apply sendTransaction_same_fields.
    + intros k Hk. apply lookup_insert_ne. intros ->. apply Hkey.
      unfold sendTransaction_keys. cbn in Hk |- *. tauto.
    + intros _. apply lookup_insert_ne. intros ->. apply Hkey. cbn. tauto.
    + intros _. apply lookup_insert_ne. intros ->. apply Hkey. cbn. tauto.
  - intros x [g Hg]. apply sendTransaction_same_fields.
    + intros k Hk. apply lookup_insert_ne. intros <-. cbn in Hk.
      intuition discriminate.
    + congruence.
    + intros _. by apply lookup_insert_ne.
  - intros x [g Hg]. apply sendTransaction_same_fields.
    + intros k Hk. apply lookup_insert_ne. intros <-. cbn in Hk.
      intuition discriminate.
    + intros _. by apply lookup_insert_ne.
    + congruence.
Qed.

End SendTransactionFields.

Lemma sendTransaction_reads_its_keys_only_witness :
  ~ In "chainId" sendTransaction_keys /\
  is_Some (Demo.valid_params !! "gas") /\
  Demo.sendTransaction (PyDict (<["chainId" := PyInt 1]> Demo.valid_params)) []
    = Demo.sendTransaction (PyDict Demo.valid_params) [] /\
  Demo.sendTransaction (PyDict (<["startgas" := PyList []]> Demo.valid_params)) []
    = Demo.sendTransaction (PyDict Demo.valid_params) [].
Proof.
  assert (Hkey : ~ In "chainId" sendTransaction_keys)
    by (cbn; intuition discriminate).
  assert (Hgas : is_Some (Demo.valid_params !! "gas"))
    by (eexists; vm_compute; reflexivity).
  destruct (sendTransaction_reads_its_keys_only
              Demo.recipient Demo.branch_value Demo.new_transaction
              Demo.tx_hash Demo.master_addTx Demo.valid_params [])
    as (H1 & H2 & _).
  split; [exact Hkey|]. split; [exact Hgas|].
  split; [by apply H1|by apply H2].
Defined.

Section SendTransactionErrors.

Context {Address Branch Transaction MasterState : Type}.
Context {Address_cls : Serializable Address}.
Context {Branch_cls : Serializable Branch}.
Variable recipient : Address -> list byte.
Variable branch_value : Branch -> Z.
Variable new_transaction : EvmTransaction -> res Transaction.
Variable tx_hash : Transaction -> list byte.
Variable master_addTx :
  Transaction -> Branch -> MasterState -> res unit * MasterState.

Local Abbreviation sendTx :=
  (sendTransaction recipient branch_value new_transaction tx_hash master_addTx).

Lemma obj_decoder_field_error {T} `{Serializable T} data (e : exn) :
  obj_decoder (T := T) data = Raise e -> field_error e.
Proof.
  unfold obj_decoder. destruct (data_decoder data) as [raw|e'] eqn:E; cbn [bind].
  - destruct (deserialize raw); [done|]. intros [= <-]. right. left. eauto.
  - intros [= <-]. right. right. by eapply data_decoder_raises_any.
Qed.

(** A failed field read raises a field error, whatever the field. *)
Lemma getDataDefault_field_error m e :
  (forall key d, getDataDefault m key quantity_decoder d = Raise e -> field_error e)
  /\ (forall key, getDataDefault m key (py_some quantity_decoder) None = Raise e ->
        field_error e)
  /\ (forall key,
        getDataDefault m key (py_some (address_decoder (Address := Address))) None
          = Raise e -> field_error e)
  /\ (getDataDefault m "branch" (branch_decoder (Branch := Branch)) None = Raise e ->
        field_error e)
  /\ (getDataDefault m "data" data_decoder [] = Raise e -> field_error e).
Proof.
  unfold getDataDefault, py_some, address_decoder, branch_decoder.
  repeat split; intros.
  all: repeat match goal with
       | H : match ?m0 !! ?k with _ => _ end = _ |- _ =>
           destruct (m0 !! k); [|discriminate H]
       | H : bind ?c _ = Raise _ |- _ =>
           let E := fresh "E" in
           destruct c eqn:E; cbn [bind] in H; [discriminate H|];
           injection H as <-
       end.
  - apply quantity_decoder_raises in H as ->. by left.
  - apply quantity_decoder_raises in E as ->. by left.
  - exact (obj_decoder_field_error _ _ E).
  - exact (obj_decoder_field_error _ _ E).
  - right. right. by eapply data_decoder_raises_any.
Qed.

Lemma field_error_not_missing e : field_error e -> ~ In e missing_field_errors.
Proof.
  intros [->|[(c & ->)|He]] Hin; cbn in Hin.
  - intuition discriminate.
  - intuition discriminate.
  - destruct Hin as [<-|[<-|[<-|[]]]]; discriminate He.
Qed.

(** X16. Decoding comes before the presence checks: when one of the
    quantity fields ["value"], ["v"], ["r"], ["s"], ["nonce"], ["withdraw"]
    is present with a value [quantity_decoder] refuses, [sendTransaction]
    raises a decoding error and none of the "Missing ..." messages, also
    when the nonce or the signature is absent. *)
Theorem sendTransaction_decoding_error_first
    (m : gmap string pyval) (st : MasterState) (key : string) (x : pyval) (e0 : exn) :
  In key ["value"; "v"; "r"; "s"; "nonce"; "withdraw"] ->
  m !! key = Some x ->
  quantity_decoder x = Raise e0 ->
  exists e, sendTx (PyDict m) st = (Raise e, st) /\
            field_error e /\ ~ In e missing_field_errors.
Proof.
  intros Hkey Hx Hq.
  assert (Hplain : forall d, getDataDefault m key quantity_decoder d = Raise e0).
  { intros d. unfold getDataDefault. by rewrite Hx. }
  assert (Hsome : getDataDefault m key (py_some quantity_decoder) None = Raise e0).
  { unfold getDataDefault, py_some. by rewrite Hx, Hq. }
  assert (Hgoal : exists e, sendTx (PyDict m) st = (Raise e, st) /\ field_error e).
  { unfold sendTransaction. cbv zeta.
    cbn in Hkey.
    destruct Hkey as [<-|[<-|[<-|[<-|[<-|[<-|[]]]]]]].
    all: do 12 (rewrite bindM_lift;
      match goal with
      | |- context [match getDataDefault ?m0 ?k ?d ?v with _ => _ end] =>
          let E := fresh "E" in
          destruct (getDataDefault m0 k d v) eqn:E;
          [| eexists; split; [reflexivity|];
             match type of E with
             | _ = Raise ?e1 =>
                 destruct (getDataDefault_field_error m e1) as (H1 & H2 & H3 & H4 & H5)
             end;
             first [ eapply H1; exact E | eapply H2; exact E | eapply H3; exact E
                   | eapply H4; exact E | eapply H5; exact E ] ]
      end).
    all: exfalso; rewrite ?Hplain, ?Hsome in *; congruence. }
  destruct Hgoal as (e & He & Hfield).
  exists e. split; [exact He|]. split; [exact Hfield|].
  by apply field_error_not_missing.
Qed.

End SendTransactionErrors.

Lemma sendTransaction_decoding_error_first_witness :
  exists e,
    Demo.sendTransaction (PyDict {[ "v" := PyStr "0x0ff" ]}) [] = (Raise e, []) /\
    field_error e /\ ~ In e missing_field_errors.
Proof.
  apply (sendTransaction_decoding_error_first
           Demo.recipient Demo.branch_value Demo.new_transaction Demo.tx_hash
           Demo.master_addTx {[ "v" := PyStr "0x0ff" ]} [] "v" (PyStr "0x0ff")
           (InvalidParams ["Invalid quantity encoding"])).
  - cbn. auto.
  - vm_compute. reflexivity.
  - reflexivity.
Defined.

(** ** Quantities that are refused *)

(** X17. Among strings of ["0x"] and hexadecimal digits, [quantity_decoder]
    refuses the one without digits and those of two digits or more that
    begin with ["0"], with [InvalidParams("Invalid quantity encoding")]. *)
Theorem quantity_decoder_refuses_empty_and_padded (t : string) :
  Py.all_hex t = true ->
  t = EmptyString \/ (1 < Py.len t /\ String.get 0 t = Some "0"%char) ->
  quantity_decoder (PyStr ("0x" ++ t))
    = Raise (InvalidParams ["Invalid quantity encoding"]).
Proof.
  intros Hhex [->|[Hlen Hhead]]; [reflexivity|].
  unfold quantity_decoder. rewrite startswith_0x. cbn [negb].
  rewrite len_0x. rewrite !append_String, append_empty. cbn [String.get].
  rewrite (bool_decide_eq_true_2 _ Hhead).
  destruct (Z.ltb_spec 3 (2 + Py.len t)); [reflexivity|lia].
Qed.

Lemma quantity_decoder_refuses_empty_and_padded_witness :
  quantity_decoder (PyStr "0x") = Raise (InvalidParams ["Invalid quantity encoding"])
  /\ quantity_decoder (PyStr "0x00") = Raise (InvalidParams ["Invalid quantity encoding"]).
Proof.
  split.
  - apply (quantity_decoder_refuses_empty_and_padded ""); [reflexivity|by left].
  - apply (quantity_decoder_refuses_empty_and_padded "00"); [reflexivity|].
    right. split; reflexivity.
Defined.

Lemma block_id_decoder_quantity_witness :
  0 <= 5 /\
  exists s, quantity_encoder 5 = Ret s /\ block_id_decoder (PyStr s) = Ret (PyInt 5).
Proof.
  split; [lia|].
  destruct block_id_decoder_quantity as [H _]. apply (H 5). lia.
Defined.
